(** * The monitoring engine of yt-subchannel-monitor

    A shallow embedding of [src/state_manager.py] (class [StateManager]) and
    of the channel loop of [src/youtube_monitor.py] (class [YouTubeMonitor]),
    with the properties the specification states about them.

    Python objects are modelled as follows.
    - The state dictionary has the two keys the code itself creates and reads,
      ["channels"] and ["metadata"]; a channel entry is a dictionary from field
      names to JSON scalars, so that entries written by older versions (with
      fields missing) are representable.
    - Python integers are [Z]; strings are [string]; [None] is [PNone].
    - Code that can raise runs in a state-and-exception monad; [try]/[except]
      is a combinator that filters on the exception class.
    - The collaborators (YouTube API, Telegram bot, clock, file system) are
      outcomes handed to the code: what a call returned or raised. *)

From Stdlib Require Import Ascii.
From stdpp Require Import gmap strings list pretty.

Open Scope Z_scope.

(** ** Python values and exceptions *)

Inductive pyval : Type :=
  | PNone
  | PBool (b : bool)
  | PInt (n : Z)
  | PStr (s : string).

#[global] Instance pyval_eq_dec : EqDecision pyval.
Proof. solve_decision. Defined.

(** [a == b] on the scalars above: [bool] is a subclass of [int], so
    [True == 1]; values of unrelated types are never equal. *)
Definition py_eq (a b : pyval) : bool :=
  match a, b with
  | PNone, PNone => true
  | PBool x, PBool y => bool_decide (x = y)
  | PBool x, PInt n | PInt n, PBool x => bool_decide (n = if x then 1 else 0)
  | PInt n, PInt m => bool_decide (n = m)
  | PStr s, PStr t => bool_decide (s = t)
  | _, _ => false
  end.

Definition py_ne (a b : pyval) : bool := negb (py_eq a b).

(** [d.get(k)]: the value under [k], or [None] when the key is absent. *)
Definition dict_get (d : gmap string pyval) (k : string) : pyval :=
  default PNone (d !! k).

(** The exception classes that occur, with their direct base class. *)
Inductive exn : Type :=
  | Exception
  | ValueError
  | JSONDecodeError
  | UnicodeDecodeError
  | OSError
  | KeyError
  | TypeError
  | OverflowError
  | RuntimeError
  | RecursionError.

#[global] Instance exn_eq_dec : EqDecision exn.
Proof. solve_decision. Defined.

Definition base (e : exn) : option exn :=
  match e with
  | Exception => None
  | JSONDecodeError | UnicodeDecodeError => Some ValueError
  | RecursionError => Some RuntimeError
  | ValueError | OSError | KeyError | TypeError | OverflowError
  | RuntimeError => Some Exception
  end.

Fixpoint issubclass_upto (depth : nat) (e c : exn) : bool :=
  bool_decide (e = c) ||
  match depth, base e with
  | S d, Some b => issubclass_upto d b c
  | _, _ => false
  end.

Definition issubclass : exn -> exn -> bool := issubclass_upto 2.

(** [except (c1, c2, ...)] handles [e] when it is an instance of one of the
    listed classes. *)
Definition handles (classes : list exn) (e : exn) : bool :=
  existsb (issubclass e) classes.

(** ** State and exceptions *)

Inductive result (A : Type) : Type :=
  | Ok (a : A)
  | Raise (e : exn).
Arguments Ok {A} a.
Arguments Raise {A} e.

(** A computation on a mutable object of type [S]: it returns or raises, and
    the mutations made before a raise stay. *)
Definition M (S A : Type) : Type := S -> result A * S.

Definition ret {S A} (a : A) : M S A := fun s => (Ok a, s).

Definition raise {S A} (e : exn) : M S A := fun s => (Raise e, s).

Definition bind {S A B} (c : M S A) (k : A -> M S B) : M S B :=
  fun s =>
    match c s with
    | (Ok a, s') => k a s'
    | (Raise e, s') => (Raise e, s')
    end.

Definition gets {S A} (f : S -> A) : M S A := fun s => (Ok (f s), s).

Definition modify {S} (f : S -> S) : M S unit := fun s => (Ok tt, f s).

(** What a collaborator answered is injected as is. *)
Definition outcome {S A} (r : result A) : M S A := fun s => (r, s).

Definition try_except {S A} (body : M S A) (classes : list exn)
    (handler : exn -> M S A) : M S A :=
  fun s =>
    match body s with
    | (Ok a, s') => (Ok a, s')
    | (Raise e, s') =>
        if handles classes e then handler e s' else (Raise e, s')
    end.

Definition exec {S A} (c : M S A) (s : S) : S := snd (c s).

Declare Scope py_scope.
Delimit Scope py_scope with py.
Notation "x <- c1 ;; c2" := (bind c1 (fun x => c2))
  (at level 100, c1 at next level, right associativity) : py_scope.
Notation "c1 ;; c2" := (bind c1 (fun _ => c2))
  (at level 100, right associativity) : py_scope.
Open Scope py_scope.

(** [for x in xs: body x] *)
Fixpoint for_each {S A} (xs : list A) (body : A -> M S unit) : M S unit :=
  match xs with
  | [] => ret tt
  | x :: xs' => body x ;; for_each xs' body
  end.

(** ** The persisted state *)

Record Metadata : Type := {
  last_run : option string;
  total_notifications_sent : Z;
  version : string
}.

Record GlobalState : Type := {
  channels : gmap string (gmap string pyval);
  metadata : Metadata
}.

(** The state file as the process finds it: not there, there but not
    readable (a directory, no permission), or a sequence of bytes. *)
Inductive file : Type :=
  | Absent
  | Unreadable
  | Content (bytes : string).

(** [json.dump] and [json.loads] of the standard library. [json_loads]
    answers what the parser returned or the exception it raised:
    [JSONDecodeError] on text that is not JSON, and whatever else it may
    raise, such as [RecursionError] on text nested too deep. The values it
    returns are those of the shape above; the code does not validate what it
    loads, and a file holding JSON of another shape is not represented. *)
Class JsonCodec : Type := {
  json_dumps : GlobalState -> string;
  json_loads : string -> result GlobalState
}.

(** Text files are decoded with the locale's encoding, UTF-8 here, in strict
    mode: the byte sequences of RFC 3629 and nothing else. *)
Definition byte_in (lo hi : Z) (c : ascii) : bool :=
  let b := Z.of_N (N_of_ascii c) in (lo <=? b) && (b <=? hi).

Fixpoint utf8_valid (s : string) : bool :=
  match s with
  | EmptyString => true
  | String c0 r0 =>
      if byte_in 0x00 0x7F c0 then utf8_valid r0
      else match r0 with
      | EmptyString => false
      | String c1 r1 =>
          if byte_in 0xC2 0xDF c0 then byte_in 0x80 0xBF c1 && utf8_valid r1
          else match r1 with
          | EmptyString => false
          | String c2 r2 =>
              if byte_in 0xE0 0xEF c0 then
                (if byte_in 0xE0 0xE0 c0 then byte_in 0xA0 0xBF c1
                 else if byte_in 0xED 0xED c0 then byte_in 0x80 0x9F c1
                 else byte_in 0x80 0xBF c1)
                && byte_in 0x80 0xBF c2 && utf8_valid r2
              else match r2 with
              | EmptyString => false
              | String c3 r3 =>
                  byte_in 0xF0 0xF4 c0
                  && (if byte_in 0xF0 0xF0 c0 then byte_in 0x90 0xBF c1
                      else if byte_in 0xF4 0xF4 c0 then byte_in 0x80 0x8F c1
                      else byte_in 0x80 0xBF c1)
                  && byte_in 0x80 0xBF c2 && byte_in 0x80 0xBF c3
                  && utf8_valid r3
              end
          end
      end
  end.

(** What can go wrong while the state file is written. *)
Inductive write_fault : Type :=
  | NoFault
  | MakedirsFails
  | OpenFails
  | WriteFails (written : nat).

(** ** [state_manager.py] *)

Module StateManager.

(** The object: [self.state], and the file [self.state_file_path] names. *)
Record t : Type := {
  state : GlobalState;
  disk : file
}.

Definition _default_state : GlobalState :=
  {| channels := ∅;
     metadata := {| last_run := None;
                    total_notifications_sent := 0;
                    version := "1.0.0" |} |}.

Section Persistence.
Context `{JsonCodec}.

Definition os_path_exists : M file bool :=
  gets (fun f => match f with Absent => false | _ => true end).

(** [with open(path, 'r') as f: json.load(f)] *)
Definition read_text : M file string :=
  f <- gets id ;;
  match f with
  | Absent | Unreadable => raise OSError
  | Content bytes =>
      if utf8_valid bytes then ret bytes else raise UnicodeDecodeError
  end.

Definition json_load : M file GlobalState :=
  text <- read_text ;;
  outcome (json_loads text).

Definition _load_state : M file GlobalState :=
  found <- os_path_exists ;;
  if found then
    try_except json_load [JSONDecodeError; OSError]
      (fun _ => ret _default_state)
  else
    ret _default_state.

Definition set_last_run (utcnow : string) (st : GlobalState) : GlobalState :=
  {| channels := channels st;
     metadata := {| last_run := Some utcnow;
                    total_notifications_sent :=
                      total_notifications_sent (metadata st);
                    version := version (metadata st) |} |}.

Definition os_makedirs (fault : write_fault) : M t unit :=
  match fault with
  | MakedirsFails => raise OSError
  | _ => ret tt
  end.

(** [open(path, 'w')] truncates the file as soon as it succeeds. *)
Definition open_w (fault : write_fault) : M t unit :=
  match fault with
  | OpenFails => raise OSError
  | _ => modify (fun sm => {| state := state sm; disk := Content EmptyString |})
  end.

(** [json.dump(self.state, f, indent=2)] followed by the close of the
    [with] block: the text goes out front to back, and a fault leaves what
    had reached the file by then. *)
Definition json_dump (fault : write_fault) : M t unit :=
  text <- gets (fun sm => json_dumps (state sm)) ;;
  match fault with
  | WriteFails written =>
      modify (fun sm =>
        {| state := state sm;
           disk := Content (String.substring 0 written text) |}) ;;
      raise OSError
  | _ =>
      modify (fun sm => {| state := state sm; disk := Content text |})
  end.

Definition save_state (utcnow : string) (fault : write_fault) : M t unit :=
  modify (fun sm =>
    {| state := set_last_run utcnow (state sm); disk := disk sm |}) ;;
  os_makedirs fault ;;
  open_w fault ;;
  json_dump fault.
End Persistence.

Definition get_channel_state (st : GlobalState) (channel_id : string)
    : option (gmap string pyval) :=
  channels st !! channel_id.

Definition channel_entry (channel_name latest_video_id video_timestamp
    utcnow : string) : gmap string pyval :=
  <["name" := PStr channel_name]>
  (<["latest_video_id" := PStr latest_video_id]>
  (<["latest_video_timestamp" := PStr video_timestamp]>
  (<["last_checked" := PStr utcnow]> ∅))).

Definition update_channel_state (utcnow : string)
    (channel_id channel_name latest_video_id video_timestamp : string)
    (st : GlobalState) : GlobalState :=
  {| channels :=
       <[channel_id :=
           channel_entry channel_name latest_video_id video_timestamp utcnow]>
         (channels st);
     metadata := metadata st |}.

Definition is_new_video (st : GlobalState) (channel_id video_id : string)
    : bool :=
  match get_channel_state st channel_id with
  | None => true
  | Some channel_state =>
      py_ne (dict_get channel_state "latest_video_id") (PStr video_id)
  end.

Definition increment_notification_count (st : GlobalState) : GlobalState :=
  {| channels := channels st;
     metadata := {| last_run := last_run (metadata st);
                    total_notifications_sent :=
                      total_notifications_sent (metadata st) + 1;
                    version := version (metadata st) |} |}.

End StateManager.

(** ** Dates and durations

    A [datetime] is its wall-clock reading in microseconds and, when it is
    timezone-aware, its offset from UTC; a [timedelta] is a number of
    microseconds. *)

Record datetime : Type := {
  wall : Z;
  utcoffset : option Z
}.

(** [datetime.fromisoformat] of the standard library; [None] where Python
    raises [ValueError]. *)
Class IsoParser : Type := {
  fromisoformat : string -> option datetime
}.

(** [s.replace('Z', '+00:00')] *)
Fixpoint replace_Z (s : string) : string :=
  match s with
  | EmptyString => EmptyString
  | String c r =>
      if bool_decide (c = "Z"%char) then "+00:00" +:+ replace_Z r
      else String c (replace_Z r)
  end.

Definition microseconds_per_day : Z := 86400 * 1000000.

(** [timedelta(days=d)]: the magnitude is limited to 999999999 days. *)
Definition timedelta_days (d : Z) : result Z :=
  if (-999999999 <=? d) && (d <=? 999999999)
  then Ok (d * microseconds_per_day)
  else Raise OverflowError.

(** [a - b]: an aware and a naive datetime cannot be subtracted. *)
Definition datetime_sub (a b : datetime) : result Z :=
  match utcoffset a, utcoffset b with
  | Some oa, Some ob => Ok ((wall a - oa) - (wall b - ob))
  | None, None => Ok (wall a - wall b)
  | _, _ => Raise TypeError
  end.

(** ** [youtube_monitor.py] *)

Record General : Type := { dry_run : option bool }.

Record Youtube : Type := { max_video_age_days : option Z }.

(** The sections of [config.json] the monitor itself reads. *)
Record Config : Type := {
  general : option General;
  youtube : option Youtube
}.

(** The dictionaries [YouTubeClient] builds. *)
Record Video : Type := {
  video_id : string;
  title : string;
  description : string;
  published_at : string;
  thumbnail_url : option string;
  video_url : string
}.

Record Subscription : Type := {
  channel_id : string;
  channel_title : string
}.

(** What the outside world answers while one channel is checked:
    the clock ([datetime.utcnow().isoformat()] and [datetime.now(timezone.utc)]
    in microseconds since the epoch), [youtube_client.get_latest_video] and
    [telegram_client.send_notification_sync]. *)
Record Env : Type := {
  utcnow : string;
  now_utc : Z;
  latest_video : result (option Video);
  telegram_send : result bool
}.

Record Stats : Type := {
  channels_checked : Z;
  new_videos_found : Z;
  notifications_sent : Z;
  errors : Z
}.

Module YouTubeMonitor.

(** The object: its state manager, its statistics, and (for the statements
    only) the calls made to the Telegram client so far, latest first, as
    pairs of channel name and video id. *)
Record t : Type := {
  state_manager : StateManager.t;
  stats : Stats;
  telegram_calls : list (string * string)
}.

Definition new_stats : Stats :=
  {| channels_checked := 0; new_videos_found := 0;
     notifications_sent := 0; errors := 0 |}.

Definition on_stats (f : Stats -> Stats) (m : t) : t :=
  {| state_manager := state_manager m;
     stats := f (stats m);
     telegram_calls := telegram_calls m |}.

Definition on_state (f : GlobalState -> GlobalState) (m : t) : t :=
  {| state_manager :=
       {| StateManager.state := f (StateManager.state (state_manager m));
          StateManager.disk := StateManager.disk (state_manager m) |};
     stats := stats m;
     telegram_calls := telegram_calls m |}.

Definition log_call (channel_name vid : string) (m : t) : t :=
  {| state_manager := state_manager m;
     stats := stats m;
     telegram_calls := (channel_name, vid) :: telegram_calls m |}.

(** A method of [self.state_manager] called from the monitor. *)
Definition in_state_manager {A} (c : M StateManager.t A) : M t A :=
  fun m =>
    let (r, sm) := c (state_manager m) in
    (r, {| state_manager := sm;
           stats := stats m;
           telegram_calls := telegram_calls m |}).

Definition the_state (m : t) : GlobalState :=
  StateManager.state (state_manager m).

Definition incr_channels_checked (s : Stats) : Stats :=
  {| channels_checked := channels_checked s + 1;
     new_videos_found := new_videos_found s;
     notifications_sent := notifications_sent s;
     errors := errors s |}.

Definition incr_new_videos_found (s : Stats) : Stats :=
  {| channels_checked := channels_checked s;
     new_videos_found := new_videos_found s + 1;
     notifications_sent := notifications_sent s;
     errors := errors s |}.

Definition incr_notifications_sent (s : Stats) : Stats :=
  {| channels_checked := channels_checked s;
     new_videos_found := new_videos_found s;
     notifications_sent := notifications_sent s + 1;
     errors := errors s |}.

Definition incr_errors (s : Stats) : Stats :=
  {| channels_checked := channels_checked s;
     new_videos_found := new_videos_found s;
     notifications_sent := notifications_sent s;
     errors := errors s + 1 |}.

Section Monitor.
Context `{IsoParser} `{JsonCodec}.
Variable config : Config.

(** [self.config.get("youtube", {}).get("max_video_age_days", 7)] *)
Definition configured_max_age_days : Z :=
  match youtube config with
  | Some y => default 7 (max_video_age_days y)
  | None => 7
  end.

Definition _is_video_recent_enough {S} (env : Env) (published : string)
    : M S bool :=
  try_except
    (published_time <-
       match fromisoformat (replace_Z published) with
       | Some d => ret d
       | None => raise ValueError
       end ;;
     let current_time := {| wall := now_utc env; utcoffset := Some 0 |} in
     let max_age_days := configured_max_age_days in
     max_age <- outcome (timedelta_days max_age_days) ;;
     age <- outcome (datetime_sub current_time published_time) ;;
     let is_recent := age <=? max_age in
     ret is_recent)
    [Exception]
    (fun _ => ret true).

Definition _send_notification (env : Env) (channel_name : string)
    (video : Video) : M t bool :=
  section <-
    match general config with
    | Some g => ret g
    | None => raise KeyError
    end ;;
  if default false (dry_run section) then ret true
  else
    modify (log_call channel_name (video_id video)) ;;
    outcome (telegram_send env).

Definition call_update_channel_state (env : Env)
    (channel_id channel_name : string) (video : Video) : M t unit :=
  modify (on_state (StateManager.update_channel_state (utcnow env)
            channel_id channel_name (video_id video) (published_at video))).

(** The [try] block of [_check_channel_for_new_videos]. *)
Definition check_channel_try (env : Env) (channel_id channel_name : string)
    : M t unit :=
  latest <- outcome (latest_video env) ;;
  match latest with
  | None => ret tt
  | Some video =>
      recent <- _is_video_recent_enough env (published_at video) ;;
      if negb recent then
        call_update_channel_state env channel_id channel_name video
      else
        is_new <- gets (fun m =>
          StateManager.is_new_video (the_state m) channel_id
            (video_id video)) ;;
        if is_new then
          modify (on_stats incr_new_videos_found) ;;
          sent <- _send_notification env channel_name video ;;
          if sent then
            call_update_channel_state env channel_id channel_name video ;;
            modify (on_state StateManager.increment_notification_count) ;;
            modify (on_stats incr_notifications_sent)
          else ret tt
        else ret tt
  end.

Definition _check_channel_for_new_videos (env : Env)
    (subscription : Subscription) : M t unit :=
  let channel_id := channel_id subscription in
  let channel_name := channel_title subscription in
  modify (on_stats incr_channels_checked) ;;
  try_except
    (check_channel_try env channel_id channel_name)
    [Exception]
    (fun _ => modify (on_stats incr_errors)).

(** [for subscription in subscriptions:
      self._check_channel_for_new_videos(subscription)],
    each channel paired with what the world answers while it is checked. *)
Definition check_all (subscriptions : list (Subscription * Env))
    : M t unit :=
  for_each subscriptions
    (fun step => _check_channel_for_new_videos (snd step) (fst step)).

(** [run] for [test_mode=False]. [subscriptions] is what
    [youtube_client.get_subscriptions] answers or raises. *)
Definition run (subscriptions : result (list (Subscription * Env)))
    (utcnow_at_save : string) (fault : write_fault) : M t Stats :=
  try_except
    (subs <- outcome subscriptions ;;
     match subs with
     | [] => gets stats
     | _ =>
         check_all subs ;;
         in_state_manager (StateManager.save_state utcnow_at_save fault) ;;
         gets stats
     end)
    [Exception]
    (fun _ => modify (on_stats incr_errors) ;; gets stats).
End Monitor.

End YouTubeMonitor.


(** ** Vocabulary of the statements *)

Import YouTubeMonitor.

Definition total_sent (m : t) : Z :=
  total_notifications_sent (metadata (the_state m)).

(** The field ["last_checked"] of a channel's entry, when there is one. *)
Definition last_checked_of (st : GlobalState) (cid : string) : option pyval :=
  (fun entry => dict_get entry "last_checked")
    <$> StateManager.get_channel_state st cid.

(** The fingerprint kept for a channel, when there is an entry. *)
Definition fingerprint_of (st : GlobalState) (cid : string) : option pyval :=
  (fun entry => dict_get entry "latest_video_id")
    <$> StateManager.get_channel_state st cid.

(** The monitor once [channels_checked] has been counted. *)
Definition checked (m : t) : t := on_stats incr_channels_checked m.

(** The state reached when the dispatch has answered: the commit if it
    reported success, nothing if it reported failure, the error count if it
    raised. *)
Definition after_dispatch (env : Env) (sub : Subscription) (v : Video)
    (sent : result bool * t) : t :=
  match sent with
  | (Ok true, m) =>
      on_stats incr_notifications_sent
        (on_state StateManager.increment_notification_count
           (on_state (StateManager.update_channel_state (utcnow env)
                        (channel_id sub) (channel_title sub) (video_id v)
                        (published_at v)) m))
  | (Ok false, m) => m
  | (Raise _, m) => on_stats incr_errors m
  end.

Section Vocabulary.
Context `{IsoParser}.

(** The answer of the recency policy. *)
Definition recent (config : Config) (env : Env) (published : string)
    : bool :=
  match fst (_is_video_recent_enough config env published tt) with
  | Ok b => b
  | Raise _ => true
  end.

(** The fetched item went through the recency gate and the dedup gate. *)
Definition passes_gates (config : Config) (env : Env) (sub : Subscription)
    (m : t) (v : Video) : Prop :=
  latest_video env = Ok (Some v)
  /\ recent config env (published_at v) = true
  /\ StateManager.is_new_video (the_state m) (channel_id sub) (video_id v)
     = true.

(** What [_send_notification] answers for this channel and item. *)
Definition dispatch_reports (config : Config) (env : Env)
    (sub : Subscription) (v : Video) (r : result bool) : Prop :=
  forall m, fst (_send_notification config env (channel_title sub) v m) = r.

Definition dry_run_enabled (config : Config) : Prop :=
  exists g, general config = Some g /\ dry_run g = Some true.

(** How many notifications this check dispatches with success: one when the
    fetched item passes both gates and [_send_notification] answers [True],
    none otherwise. *)
Definition successful_dispatches (config : Config) (env : Env)
    (sub : Subscription) (m : t) : Z :=
  match latest_video env with
  | Ok (Some v) =>
      if recent config env (published_at v)
         && StateManager.is_new_video (the_state m) (channel_id sub)
              (video_id v)
      then
        match fst (_send_notification config env (channel_title sub) v m) with
        | Ok true => 1
        | _ => 0
        end
      else 0
  | _ => 0
  end.

(** The check writes the channel's entry: the fetched item is too old, or it
    was dispatched with success. *)
Definition records_item (config : Config) (env : Env) (sub : Subscription)
    (m : t) : bool :=
  match latest_video env with
  | Ok (Some v) =>
      negb (recent config env (published_at v))
      || bool_decide (successful_dispatches config env sub m = 1)
  | _ => false
  end.

(** The [try] block of the check of this channel raised. *)
Definition channel_fails (config : Config) (env : Env) (sub : Subscription)
    (m : t) : bool :=
  match fst (check_channel_try config env (channel_id sub)
               (channel_title sub) (on_stats incr_channels_checked m)) with
  | Raise _ => true
  | Ok _ => false
  end.

Fixpoint failing_channels (config : Config)
    (subscriptions : list (Subscription * Env)) (m : t) : Z :=
  match subscriptions with
  | [] => 0
  | step :: rest =>
      (if channel_fails config (snd step) (fst step) m then 1 else 0)
      + failing_channels config rest
          (exec (_check_channel_for_new_videos config (snd step) (fst step))
             m)
  end.

(** A check that, if it is of channel [cid], finds the item [vid] as the
    latest one, or finds nothing. *)
Definition refetches (cid vid : string) (step : Config * Subscription * Env)
    : Prop :=
  channel_id step.1.2 = cid ->
  match latest_video step.2 with
  | Ok (Some v) => video_id v = vid
  | _ => True
  end.

(** Nothing was sent and nothing was counted between [m] and [m']. *)
Definition nothing_notified (m m' : t) : Prop :=
  telegram_calls m' = telegram_calls m
  /\ notifications_sent (stats m') = notifications_sent (stats m)
  /\ new_videos_found (stats m') = new_videos_found (stats m)
  /\ total_sent m' = total_sent m.
End Vocabulary.

(** *** Sentences of the specification as it words them *)

(** A failed [save] leaves the file as it was. *)
Definition save_is_all_or_nothing : Prop :=
  forall (codec : JsonCodec) (now : string) (fault : write_fault)
         (sm : StateManager.t),
    fst (StateManager.save_state now fault sm) <> Ok tt ->
    StateManager.disk (exec (StateManager.save_state now fault) sm)
    = StateManager.disk sm.

(** The counter does not move in a dry run. *)
Definition counter_ignores_dry_run : Prop :=
  forall (parser : IsoParser) (config : Config) (env : Env)
         (sub : Subscription) (m : t),
    dry_run_enabled config ->
    total_sent (exec (_check_channel_for_new_videos config env sub) m)
    = total_sent m.

(** Every check of a channel with an entry stamps the entry. *)
Definition last_checked_always_refreshed : Prop :=
  forall (parser : IsoParser) (config : Config) (env : Env)
         (sub : Subscription) (m : t),
    is_Some (StateManager.get_channel_state (the_state m) (channel_id sub)) ->
    last_checked_of
      (the_state (exec (_check_channel_for_new_videos config env sub) m))
      (channel_id sub)
    = Some (PStr (utcnow env)).

(** ** A parser for the examples

    The timestamps the YouTube API delivers, once [Z] is replaced, have the
    form [YYYY-MM-DDTHH:MM:SS+HH:MM]; this reads that form, with the offset
    optional, which is enough to run the code on concrete inputs. *)

Definition digit (c : ascii) : option Z :=
  let n := Z.of_N (N_of_ascii c) in
  if (48 <=? n) && (n <=? 57) then Some (n - 48) else None.

Fixpoint digits (n : nat) (acc : Z) (l : list ascii)
    : option (Z * list ascii) :=
  match n, l with
  | O, _ => Some (acc, l)
  | S n', c :: r =>
      match digit c with
      | Some d => digits n' (acc * 10 + d) r
      | None => None
      end
  | S _, [] => None
  end.

Definition expect (c : ascii) (l : list ascii) : option (list ascii) :=
  match l with
  | c' :: r => if bool_decide (c' = c) then Some r else None
  | [] => None
  end.

Definition is_leap (y : Z) : bool :=
  ((y mod 4 =? 0) && negb (y mod 100 =? 0)) || (y mod 400 =? 0).

Definition days_in_month (y m : Z) : Z :=
  if m =? 2 then (if is_leap y then 29 else 28)
  else if (m =? 4) || (m =? 6) || (m =? 9) || (m =? 11) then 30
  else 31.

(** Days from 1970-01-01 to the given date of the Gregorian calendar. *)
Definition days_from_civil (y m d : Z) : Z :=
  let y' := if m <=? 2 then y - 1 else y in
  let era := y' / 400 in
  let yoe := y' - era * 400 in
  let mp := if 2 <? m then m - 3 else m + 9 in
  let doy := (153 * mp + 2) / 5 + d - 1 in
  let doe := yoe * 365 + yoe / 4 - yoe / 100 + doy in
  era * 146097 + doe - 719468.

Definition parse_offset (l : list ascii) : option (option Z) :=
  match l with
  | [] => Some None
  | sign :: l1 =>
      match
        (if bool_decide (sign = "+"%char) then Some 1
         else if bool_decide (sign = "-"%char) then Some (-1)
         else None),
        digits 2 0 l1
      with
      | Some sg, Some (hh, l2) =>
          match expect ":" l2 with
          | Some l3 =>
              match digits 2 0 l3 with
              | Some (mm, []) =>
                  if (hh <? 24) && (mm <? 60)
                  then Some (Some (sg * (hh * 3600 + mm * 60) * 1000000))
                  else None
              | _ => None
              end
          | None => None
          end
      | _, _ => None
      end
  end.

Definition parse_iso (s : string) : option datetime :=
  '(y, l) ← digits 4 0 (String.list_ascii_of_string s);
  l ← expect "-" l;
  '(mo, l) ← digits 2 0 l;
  l ← expect "-" l;
  '(d, l) ← digits 2 0 l;
  l ← expect "T" l;
  '(h, l) ← digits 2 0 l;
  l ← expect ":" l;
  '(mi, l) ← digits 2 0 l;
  l ← expect ":" l;
  '(sec, l) ← digits 2 0 l;
  off ← parse_offset l;
  if (1 <=? y) && (1 <=? mo) && (mo <=? 12) && (1 <=? d)
     && (d <=? days_in_month y mo) && (h <? 24) && (mi <? 60) && (sec <? 60)
  then
    Some {| wall := ((days_from_civil y mo d * 86400
                      + h * 3600 + mi * 60 + sec) * 1000000);
            utcoffset := off |}
  else None.

Definition example_parser : IsoParser := {| fromisoformat := parse_iso |}.

(** [datetime.now(timezone.utc)] at the instant written as [s]. *)
Definition instant (s : string) : Z :=
  match parse_iso s with
  | Some d => wall d - default 0 (utcoffset d)
  | None => 0
  end.

(** ** Inputs of the examples *)

Definition entry_without_fingerprint : gmap string pyval :=
  <["name" := PStr "Channel One"]> ∅.

Definition legacy_state : GlobalState :=
  {| channels := <["UC1" := entry_without_fingerprint]> ∅;
     metadata := metadata StateManager._default_state |}.

(** A state file holding the single byte 0xFF, which is not UTF-8. *)
Definition invalid_utf8_bytes : string := String (ascii_of_N 0xFF) EmptyString.

Definition manager_with_old_file : StateManager.t :=
  {| StateManager.state := StateManager._default_state;
     StateManager.disk := Content "{'channels': {}}" |}.

Definition live_config : Config :=
  {| general := Some {| dry_run := None |}; youtube := None |}.

Definition dry_config : Config :=
  {| general := Some {| dry_run := Some true |}; youtube := None |}.

Definition wide_config : Config :=
  {| general := Some {| dry_run := None |};
     youtube := Some {| max_video_age_days := Some 30 |} |}.

Definition sub1 : Subscription :=
  {| channel_id := "UC1"; channel_title := "Channel One" |}.

Definition sub2 : Subscription :=
  {| channel_id := "UC2"; channel_title := "Channel Two" |}.

Definition video1 : Video :=
  {| video_id := "V1"; title := "First"; description := "n/a";
     published_at := "2024-01-06T00:00:00Z"; thumbnail_url := None;
     video_url := "https://www.youtube.com/watch?v=V1" |}.

Definition video2 : Video :=
  {| video_id := "V2"; title := "Second"; description := "n/a";
     published_at := "2024-01-09T12:00:00Z"; thumbnail_url := None;
     video_url := "https://www.youtube.com/watch?v=V2" |}.

Definition old_video : Video :=
  {| video_id := "V0"; title := "Old"; description := "n/a";
     published_at := "2023-12-25T00:00:00Z"; thumbnail_url := None;
     video_url := "https://www.youtube.com/watch?v=V0" |}.

Definition fresh_monitor : t :=
  {| state_manager := {| StateManager.state := StateManager._default_state;
                         StateManager.disk := Absent |};
     stats := new_stats;
     telegram_calls := [] |}.

(** The world at the instant [now] (written without zone, as
    [datetime.utcnow().isoformat()] does). *)
Definition env_at (now : string) (fetched : result (option Video))
    (sent : result bool) : Env :=
  {| utcnow := now;
     now_utc := instant (now +:+ "+00:00");
     latest_video := fetched;
     telegram_send := sent |}.

(** A monitor that has seen [video1] on the first channel at an earlier
    check. *)
Definition monitor_tracking_video1 : t :=
  on_state (StateManager.update_channel_state "2024-01-07T00:00:00" "UC1"
              "Channel One" "V1" "2024-01-06T00:00:00Z") fresh_monitor.

(** ** The rest of [state_manager.py] *)

(** The dictionary [get_stats] returns. *)
Record StateStats : Type := {
  total_channels_tracked : Z;
  stats_total_notifications_sent : Z;
  stats_last_run : option string
}.

Definition get_stats (st : GlobalState) : StateStats :=
  {| total_channels_tracked := Z.of_nat (size (channels st));
     stats_total_notifications_sent :=
       total_notifications_sent (metadata st);
     stats_last_run := last_run (metadata st) |}.

(** [StateManager.__init__]: the state is what [_load_state] finds. *)
Definition new_state_manager `{JsonCodec} (state_file : file)
    : result StateManager.t :=
  match fst (StateManager._load_state state_file) with
  | Ok st => Ok {| StateManager.state := st; StateManager.disk := state_file |}
  | Raise e => Raise e
  end.

(** A codec for the examples: it knows one state, written as [{}]. *)
Definition one_state_codec (st : GlobalState) : JsonCodec :=
  {| json_dumps := fun _ => "{}";
     json_loads := fun text =>
       if bool_decide (text = "{}") then Ok st
       else Raise JSONDecodeError |}.

(** A codec whose parser gives up, as [json.loads] does on text nested
    deeper than the recursion limit. *)
Definition overflowing_codec : JsonCodec :=
  {| json_dumps := fun _ => "{}";
     json_loads := fun _ => Raise RecursionError |}.

Definition saved_default_state : GlobalState :=
  StateManager.set_last_run "2024-01-08T00:00:00"
    StateManager._default_state.

Definition manager_without_file : StateManager.t :=
  {| StateManager.state := StateManager._default_state;
     StateManager.disk := Absent |}.

(** How many calls to the Telegram client were made between [m] and [m']. *)
Definition calls_made (m m' : t) : Z :=
  Z.of_nat (length (telegram_calls m'))
  - Z.of_nat (length (telegram_calls m)).

(** What [n] checks may do to the counts, between [m] and [m']. *)
Definition progress (config : Config) (n : Z) (m m' : t) : Prop :=
  let checked := channels_checked (stats m') - channels_checked (stats m) in
  let found := new_videos_found (stats m') - new_videos_found (stats m) in
  let sent := notifications_sent (stats m') - notifications_sent (stats m) in
  let failed := errors (stats m') - errors (stats m) in
  checked = n
  /\ 0 <= sent <= found
  /\ found <= checked
  /\ 0 <= failed
  /\ failed + sent <= checked
  /\ total_sent m' - total_sent m = sent
  /\ 0 <= calls_made m m' <= found
  /\ (dry_run_enabled config -> telegram_calls m' = telegram_calls m)
  /\ (~ dry_run_enabled config -> sent <= calls_made m m').

Definition one_new_video : list (Subscription * Env) :=
  [(sub1, env_at "2024-01-08T00:00:00" (Ok (Some video1)) (Ok true))].

(** ** The rest of [youtube_monitor.py]: construction, test mode, [main] *)

(** What the process finds when it starts: the environment variables, the
    configuration file (absent, or what reading it gives), what building the
    two clients gives, and the state file. *)
Record Startup : Type := {
  environ : gmap string string;
  config_file : option (result Config);
  youtube_client_built : result unit;
  telegram_client_built : result unit;
  state_file : file
}.

(** [not os.getenv(var)]: the variable is unset or empty. *)
Definition unset (p : Startup) (var : string) : bool :=
  match environ p !! var with
  | None => true
  | Some value => bool_decide (value = EmptyString)
  end.

(** A missing file raises [FileNotFoundError], an [OSError]. *)
Definition _load_config : M Startup Config :=
  found <- gets config_file ;;
  match found with
  | None => raise OSError
  | Some read => outcome read
  end.

Definition required_vars : list string :=
  ["YOUTUBE_CLIENT_ID"; "YOUTUBE_CLIENT_SECRET"; "YOUTUBE_REFRESH_TOKEN";
   "YOUTUBE_API_KEY"].

Definition _init_youtube_client : M Startup unit :=
  missing_vars <- gets (fun p => List.filter (unset p) required_vars) ;;
  match missing_vars with
  | [] => p <- gets id ;; outcome (youtube_client_built p)
  | _ => raise ValueError
  end.

Definition _init_telegram_client : M Startup unit :=
  no_bot_token <- gets (fun p => unset p "TELEGRAM_BOT_TOKEN") ;;
  no_chat_id <- gets (fun p => unset p "TELEGRAM_CHAT_ID") ;;
  if no_bot_token || no_chat_id then raise ValueError
  else p <- gets id ;; outcome (telegram_client_built p).

(** [YouTubeMonitor.__init__]: the configuration it read and the object. *)
Definition __init__ `{JsonCodec} : M Startup (Config * t) :=
  config <- _load_config ;;
  _init_youtube_client ;;
  _init_telegram_client ;;
  p <- gets id ;;
  sm <- outcome (new_state_manager (state_file p)) ;;
  ret (config,
       {| state_manager := sm; stats := new_stats; telegram_calls := [] |}).

(** What the two connection tests answer: [youtube_client.test_connection]
    always returns a pair, [telegram_client.test_connection_sync] returns or
    raises. *)
Record Connections : Type := {
  youtube_test : bool * option string;
  telegram_test : result bool
}.

(** The dictionary [_test_connections] returns; the Telegram error is never
    filled in. *)
Record TestResults : Type := {
  youtube_connected : bool;
  youtube_error : option string;
  telegram_connected : bool
}.

Definition _test_connections (c : Connections) : M t TestResults :=
  let yt_success := fst (youtube_test c) in
  let yt_error := snd (youtube_test c) in
  tg_success <- outcome (telegram_test c) ;;
  ret {| youtube_connected := yt_success;
         youtube_error := yt_error;
         telegram_connected := tg_success |}.

Inductive RunResult : Type :=
  | Statistics (s : Stats)
  | ConnectionTests (r : TestResults).

(** [run(test_mode)]: the test at the head of the [try] block chooses
    between the connection tests and the run proper; one handler covers
    both. *)
Definition run_with_mode `{IsoParser} `{JsonCodec} (test_mode : bool)
    (c : Connections) (config : Config)
    (subscriptions : result (list (Subscription * Env)))
    (utcnow_at_save : string) (fault : write_fault) : M t RunResult :=
  if test_mode then
    try_except
      (r <- _test_connections c ;; ret (ConnectionTests r))
      [Exception]
      (fun _ =>
         modify (on_stats incr_errors) ;;
         s <- gets stats ;;
         ret (Statistics s))
  else
    s <- run config subscriptions utcnow_at_save fault ;;
    ret (Statistics s).

(** The argument of [sys.exit] in [main]. In test mode the statistics (an
    error path of [run]) are indexed as if they were test results, which
    raises [TypeError]; outside test mode [results.get('errors', 0)] is read. *)
Definition exit_code (test : bool) (results : RunResult) : result Z :=
  if test then
    match results with
    | ConnectionTests r =>
        Ok (if youtube_connected r && telegram_connected r then 0 else 1)
    | Statistics _ => Raise TypeError
    end
  else
    match results with
    | Statistics s => Ok (if errors s =? 0 then 0 else 1)
    | ConnectionTests _ => Ok 0
    end.

(** [main]: the exit code of the process, and the monitor as the run left
    it when it was constructed. An exception anywhere exits with 1. *)
Definition main `{IsoParser} `{JsonCodec} (test : bool) (p : Startup)
    (c : Connections) (subscriptions : result (list (Subscription * Env)))
    (utcnow_at_save : string) (fault : write_fault) : Z * option t :=
  match fst (__init__ p) with
  | Raise _ => (1, None)
  | Ok (config, monitor) =>
      match run_with_mode test c config subscriptions utcnow_at_save fault
              monitor with
      | (Raise _, m) => (1, Some m)
      | (Ok results, m) =>
          match exit_code test results with
          | Ok code => (code, Some m)
          | Raise _ => (1, Some m)
          end
      end
  end.

Definition full_environ : gmap string string :=
  <["YOUTUBE_CLIENT_ID" := "id"]>
  (<["YOUTUBE_CLIENT_SECRET" := "secret"]>
  (<["YOUTUBE_REFRESH_TOKEN" := "token"]>
  (<["YOUTUBE_API_KEY" := "key"]>
  (<["TELEGRAM_BOT_TOKEN" := "bot"]>
  (<["TELEGRAM_CHAT_ID" := "42"]> ∅))))).

Definition good_startup : Startup :=
  {| environ := full_environ;
     config_file := Some (Ok live_config);
     youtube_client_built := Ok tt;
     telegram_client_built := Ok tt;
     state_file := Absent |}.

(** ** [telegram_client.py] *)

Module TelegramClient.

(** The fields [days] and [seconds] of a [timedelta] of [d] microseconds:
    [days] carries the sign and [0 <= seconds < 86400]. *)
Definition timedelta_days_of (d : Z) : Z := d / microseconds_per_day.

Definition timedelta_seconds_of (d : Z) : Z :=
  (d mod microseconds_per_day) / 1000000.

(** The section ["telegram"] of [config.json]. *)
Record TelegramSection : Type := {
  notification_template : option string;
  parse_mode : option string;
  disable_web_page_preview : option bool
}.

(** The calls made to the bot, latest first. *)
Inductive bot_call : Type :=
  | send_photo (photo caption mode : string) (no_preview : bool)
  | send_message (text mode : string) (no_preview : bool).

(** What the outside answers while one notification is sent: the clock,
    [str.format] on the template (it raises on a field it does not know), and
    the two calls of the bot API. *)
Record World : Type := {
  now : Z;
  format : string -> string -> string -> string -> string -> result string;
  photo_sent : result unit;
  message_sent : result unit
}.

Section Client.
Context `{IsoParser}.

Definition _calculate_time_ago {S} (now_utc : Z) (published : string)
    : M S string :=
  try_except
    (published_time <-
       match fromisoformat (replace_Z published) with
       | Some d => ret d
       | None => raise ValueError
       end ;;
     let current_time := {| wall := now_utc; utcoffset := Some 0 |} in
     time_diff <- outcome (datetime_sub current_time published_time) ;;
     let days := timedelta_days_of time_diff in
     if 0 <? days then
       if days =? 1 then ret "1 day ago"
       else ret (pretty days +:+ " days ago")
     else
       let hours := timedelta_seconds_of time_diff / 3600 in
       if 0 <? hours then
         if hours =? 1 then ret "1 hour ago"
         else ret (pretty hours +:+ " hours ago")
       else
         let minutes := (timedelta_seconds_of time_diff mod 3600) / 60 in
         if 0 <? minutes then
           if minutes =? 1 then ret "1 minute ago"
           else ret (pretty minutes +:+ " minutes ago")
         else ret "Just now")
    [Exception]
    (fun _ => ret "Recently").

(** The truth value of [thumbnail_url]: given and not empty. *)
Definition given (thumbnail : option string) : bool :=
  match thumbnail with
  | Some url => negb (bool_decide (url = EmptyString))
  | None => false
  end.

(** [ParseMode.HTML] *)
Definition HTML : string := "HTML".

Definition send_notification (config : Config)
    (telegram : option TelegramSection) (w : World)
    (channel_name video_title vid url published : string)
    (thumbnail : option string) : M (list bot_call) bool :=
  try_except
    (time_ago <- _calculate_time_ago (now w) published ;;
     section <-
       match telegram with
       | Some s => ret s
       | None => raise KeyError
       end ;;
     template <-
       match notification_template section with
       | Some text => ret text
       | None => raise KeyError
       end ;;
     message_text <-
       outcome (format w template channel_name video_title url time_ago) ;;
     with_photo <-
       (if given thumbnail then
          match general config with
          | Some g => ret (negb (default false (dry_run g)))
          | None => raise KeyError
          end
        else ret false) ;;
     (if with_photo then
        modify (cons (send_photo (default EmptyString thumbnail) message_text
                        (default HTML (parse_mode section))
                        (default false (disable_web_page_preview section))))
        ;;
        outcome (photo_sent w)
      else
        modify (cons (send_message message_text
                        (default HTML (parse_mode section))
                        (default false (disable_web_page_preview section))))
        ;;
        outcome (message_sent w)) ;;
     ret true)
    [Exception]
    (fun _ => ret false).
End Client.

End TelegramClient.

(** For the examples: a formatter that ignores the template's layout. *)
Definition plain_format (template channel_name video_title url time_ago
    : string) : result string :=
  Ok (channel_name +:+ ": " +:+ video_title +:+ " (" +:+ time_ago +:+ ")").

Definition example_world : TelegramClient.World :=
  {| TelegramClient.now := instant "2024-01-08T00:00:00+00:00";
     TelegramClient.format := plain_format;
     TelegramClient.photo_sent := Ok tt;
     TelegramClient.message_sent := Ok tt |}.

Definition example_section : TelegramClient.TelegramSection :=
  {| TelegramClient.notification_template := Some "{channel_name}";
     TelegramClient.parse_mode := None;
     TelegramClient.disable_web_page_preview := None |}.

(** ** [youtube_client.py] *)

Module YouTubeClient.

(** What [request.execute()] gives: the response, [HttpError] (the one
    exception the client handles), or another exception. *)
Inductive api_result (A : Type) : Type :=
  | Answer (a : A)
  | HttpError
  | Fails (e : exn).
Arguments Answer {A} a.
Arguments HttpError {A}.
Arguments Fails {A} e.

(** The parts of the responses the client reads. *)
Record ChannelItem : Type := {
  uploads : string
}.

Record PlaylistItem : Type := {
  item_video_id : string;
  item_title : string;
  item_description : string;
  item_published_at : string;
  item_thumbnail_high : option string
}.

Record SubscriptionItem : Type := {
  item_channel_id : string;
  item_channel_title : string;
  item_channel_description : string;
  item_channel_thumbnail : string
}.

Record Page : Type := {
  page_items : list SubscriptionItem;
  nextPageToken : option string
}.

(** The YouTube Data API as the client uses it: [channels().list(id=...)],
    [playlistItems().list(playlistId=..., maxResults=...)] and
    [subscriptions().list(pageToken=...)]. *)
Record Api : Type := {
  channels_list : string -> api_result (list ChannelItem);
  playlist_items_list : string -> Z -> api_result (list PlaylistItem);
  subscriptions_list : option string -> api_result Page
}.

(** The dictionary built for a subscription; the monitor reads the first
    two keys. *)
Record SubscriptionDict : Type := {
  dict_channel_id : string;
  dict_channel_title : string;
  dict_description : string;
  dict_thumbnail_url : string
}.

Definition video_of (item : PlaylistItem) : Video :=
  {| video_id := item_video_id item;
     title := item_title item;
     description := item_description item;
     published_at := item_published_at item;
     thumbnail_url := item_thumbnail_high item;
     video_url := "https://www.youtube.com/watch?v=" +:+ item_video_id item |}.

Definition subscription_of (item : SubscriptionItem) : SubscriptionDict :=
  {| dict_channel_id := item_channel_id item;
     dict_channel_title := item_channel_title item;
     dict_description := item_channel_description item;
     dict_thumbnail_url := item_channel_thumbnail item |}.

(** [try: ... except HttpError: return fallback] around a body made of API
    calls. *)
Definition except_HttpError {A} (body : api_result A) (fallback : A)
    : result A :=
  match body with
  | Answer a => Ok a
  | HttpError => Ok fallback
  | Fails e => Raise e
  end.

Definition and_then {A B} (call : api_result A) (k : A -> api_result B)
    : api_result B :=
  match call with
  | Answer a => k a
  | HttpError => HttpError
  | Fails e => Fails e
  end.

Definition get_channel_videos (api : Api) (channel_id : string)
    (max_results : Z) : result (list Video) :=
  except_HttpError
    (and_then (channels_list api channel_id) (fun channel_items =>
       match channel_items with
       | [] => Answer []
       | first :: _ =>
           and_then (playlist_items_list api (uploads first) max_results)
             (fun items => Answer (map video_of items))
       end))
    [].

Definition get_latest_video (api : Api) (channel_id : string)
    : result (option Video) :=
  match get_channel_videos api channel_id 1 with
  | Ok videos => Ok (head videos)
  | Raise e => Raise e
  end.

(** [not next_page_token]: absent or empty. *)
Definition no_token (token : option string) : bool :=
  match token with
  | None => true
  | Some text => bool_decide (text = EmptyString)
  end.

(** The [while True] loop of [get_subscriptions]; [fuel] bounds the number
    of requests, and [None] means the bound was reached with the API still
    handing out page tokens. *)
Fixpoint subscriptions_loop (fuel : nat) (api : Api)
    (next_page_token : option string) (subscriptions : list SubscriptionDict)
    : option (api_result (list SubscriptionDict)) :=
  match fuel with
  | O => None
  | S fuel' =>
      match subscriptions_list api next_page_token with
      | Answer response =>
          let subscriptions :=
            subscriptions ++ map subscription_of (page_items response) in
          let next_page_token := nextPageToken response in
          if no_token next_page_token then Some (Answer subscriptions)
          else subscriptions_loop fuel' api next_page_token subscriptions
      | HttpError => Some HttpError
      | Fails e => Some (Fails e)
      end
  end.

Definition get_subscriptions (fuel : nat) (api : Api)
    : option (result (list SubscriptionDict)) :=
  match subscriptions_loop fuel api None [] with
  | Some outcome => Some (except_HttpError outcome [])
  | None => None
  end.

(** From the token [first] on, the API serves [pages] one after the other,
    each naming the next, and the token after the last of them is [next]. *)
Inductive serves (api : Api)
    : option string -> list Page -> option string -> Prop :=
  | serves_none (token : option string) : serves api token [] token
  | serves_page (token : option string) (page : Page) (pages : list Page)
      (next : option string) :
      subscriptions_list api token = Answer page ->
      no_token (nextPageToken page) = false ->
      serves api (nextPageToken page) pages next ->
      serves api token (page :: pages) next.

Definition items_of (pages : list Page) : list SubscriptionDict :=
  concat (map (fun page => map subscription_of (page_items page)) pages).

End YouTubeClient.

(** The subscription as the monitor reads it. *)
Definition as_subscription (d : YouTubeClient.SubscriptionDict)
    : Subscription :=
  {| channel_id := YouTubeClient.dict_channel_id d;
     channel_title := YouTubeClient.dict_channel_title d |}.

Definition first_page : YouTubeClient.Page :=
  {| YouTubeClient.page_items :=
       [{| YouTubeClient.item_channel_id := "UC1";
           YouTubeClient.item_channel_title := "Channel One";
           YouTubeClient.item_channel_description := "n/a";
           YouTubeClient.item_channel_thumbnail := "https://yt3/1.jpg" |}];
     YouTubeClient.nextPageToken := Some "page2" |}.

Definition last_page : YouTubeClient.Page :=
  {| YouTubeClient.page_items :=
       [{| YouTubeClient.item_channel_id := "UC2";
           YouTubeClient.item_channel_title := "Channel Two";
           YouTubeClient.item_channel_description := "n/a";
           YouTubeClient.item_channel_thumbnail := "https://yt3/2.jpg" |}];
     YouTubeClient.nextPageToken := None |}.

(** An API with two pages of subscriptions; [second] is what the request for
    the second page gives. Every channel request fails with [HttpError]. *)
Definition two_page_api (second : YouTubeClient.api_result YouTubeClient.Page)
    : YouTubeClient.Api :=
  {| YouTubeClient.channels_list := fun _ => YouTubeClient.HttpError;
     YouTubeClient.playlist_items_list := fun _ _ => YouTubeClient.HttpError;
     YouTubeClient.subscriptions_list := fun token =>
       match token with
       | None => YouTubeClient.Answer first_page
       | Some _ => second
       end |}.

(** ** Timestamps read as instants *)

(** The instant a parsed timestamp names when it is read as UTC: its
    wall-clock reading less its offset, a reading without zone being taken
    as UTC already. *)
Definition as_utc (d : datetime) : Z := wall d - default 0 (utcoffset d).

(** The sentence on recency as the specification words it: every timestamp
    that parses is accepted exactly when it is no older than the configured
    number of days. *)
Definition recency_accepts_iff_within_window : Prop :=
  forall (parser : IsoParser) (config : Config) (env : Env)
         (published : string) (parsed : datetime) (days : Z),
    fromisoformat (replace_Z published) = Some parsed ->
    youtube config = Some {| max_video_age_days := Some days |} ->
    0 <= days <= 999999999 ->
    (recent config env published = true
     <-> now_utc env - as_utc parsed <= days * microseconds_per_day).

Definition week_config : Config :=
  {| general := Some {| dry_run := None |};
     youtube := Some {| max_video_age_days := Some 7 |} |}.

(** ** Runs that follow one another *)

(** What can happen after a given moment: a channel is checked, under the
    configuration of the run it belongs to; or a run ends and the next one
    starts, that is, [save_state] writes the state (with or without fault),
    the process ends, and a new process builds its state manager from the
    file. A run that ends without saving has checked nothing, so the file
    still holds what it started from. *)
Inductive event : Type :=
  | Checked (config : Config) (sub : Subscription) (env : Env)
  | Restarted (utcnow_at_save : string) (fault : write_fault).

(** The monitor of the next process; [None] when it cannot be constructed
    because [_load_state] raises. The log of Telegram calls, kept for the
    statements only, carries over. *)
Definition restart `{JsonCodec} (utcnow_at_save : string)
    (fault : write_fault) (m : t) : option t :=
  let saved :=
    exec (StateManager.save_state utcnow_at_save fault) (state_manager m) in
  match new_state_manager (StateManager.disk saved) with
  | Ok sm =>
      Some {| state_manager := sm;
              stats := new_stats;
              telegram_calls := telegram_calls m |}
  | Raise _ => None
  end.

Fixpoint later_runs `{IsoParser} `{JsonCodec} (history : list event) (m : t)
    : option t :=
  match history with
  | [] => Some m
  | Checked config sub env :: rest =>
      later_runs rest (exec (_check_channel_for_new_videos config env sub) m)
  | Restarted utcnow_at_save fault :: rest =>
      match restart utcnow_at_save fault m with
      | Some m' => later_runs rest m'
      | None => None
      end
  end.

(** The entry of channel [cid], made for item [vid], is not lost along the
    history: every check of the channel finds this item or none, and every
    save is without fault and is read back as it was written. *)
Fixpoint record_kept `{IsoParser} `{JsonCodec} (cid vid : string)
    (history : list event) (m : t) : Prop :=
  match history with
  | [] => True
  | Checked config sub env :: rest =>
      refetches cid vid (config, sub, env)
      /\ record_kept cid vid rest
           (exec (_check_channel_for_new_videos config env sub) m)
  | Restarted utcnow_at_save fault :: rest =>
      fault = NoFault
      /\ (let saved :=
            StateManager.set_last_run utcnow_at_save (the_state m) in
          utf8_valid (json_dumps saved) = true
          /\ json_loads (json_dumps saved) = Ok saved)
      /\ match restart utcnow_at_save fault m with
         | Some m' => record_kept cid vid rest m'
         | None => False
         end
  end.

(** The sentence on stale items as the specification words it: an item
    skipped as too old is not notified at any later check that finds it
    again as the latest item of its channel, whatever happened between. *)
Definition stale_item_is_never_notified : Prop :=
  forall (parser : IsoParser) (codec : JsonCodec) (config0 : Config)
         (env0 : Env) (sub : Subscription) (v : Video) (m0 : t)
         (history : list event) (config : Config) (env : Env) (m2 : t),
    latest_video env0 = Ok (Some v) ->
    recent config0 env0 (published_at v) = false ->
    latest_video env = Ok (Some v) ->
    later_runs history
      (exec (_check_channel_for_new_videos config0 env0 sub) m0)
    = Some m2 ->
    nothing_notified m2
      (exec (_check_channel_for_new_videos config env sub) m2).

#[global] Instance Metadata_eq_dec : EqDecision Metadata.
Proof. solve_decision. Defined.

#[global] Instance GlobalState_eq_dec : EqDecision GlobalState.
Proof. solve_decision. Defined.

(** A codec for the examples that knows the states of a table, each under
    its own text, and reads anything else as not being JSON. *)
Definition table_codec (table : list (string * GlobalState)) : JsonCodec :=
  {| json_dumps := fun st =>
       match List.find (fun row => bool_decide (snd row = st)) table with
       | Some row => fst row
       | None => "{}"
       end;
     json_loads := fun text =>
       match List.find (fun row => bool_decide (fst row = text)) table with
       | Some row => Ok (snd row)
       | None => Raise JSONDecodeError
       end |}.

(** The states saved at the end of the first and of the second run of the
    examples: [old_video] skipped as too old on 2024-01-08, then [video2]
    notified on 2024-01-10. *)
Definition state_saved_by_run1 : GlobalState :=
  StateManager.set_last_run "2024-01-08T00:00:05"
    (StateManager.update_channel_state "2024-01-08T00:00:00" "UC1"
       "Channel One" "V0" "2023-12-25T00:00:00Z"
       StateManager._default_state).

Definition state_saved_by_run2 : GlobalState :=
  StateManager.set_last_run "2024-01-10T00:00:05"
    (StateManager.increment_notification_count
       (StateManager.update_channel_state "2024-01-10T00:00:00" "UC1"
          "Channel One" "V2" "2024-01-09T12:00:00Z" state_saved_by_run1)).

Definition example_codec : JsonCodec :=
  table_codec [("run1", state_saved_by_run1); ("run2", state_saved_by_run2)].

Definition skip_of_old_video : Env :=
  env_at "2024-01-08T00:00:00" (Ok (Some old_video)) (Ok true).

(** Run 1 ends, run 2 notifies [video2], run 2 ends. *)
Definition another_item_between : list event :=
  [Restarted "2024-01-08T00:00:05" NoFault;
   Checked live_config sub1
     (env_at "2024-01-10T00:00:00" (Ok (Some video2)) (Ok true));
   Restarted "2024-01-10T00:00:05" NoFault].

(** Run 1 ends, run 2 finds the same old item and checks another channel. *)
Definition same_item_between : list event :=
  [Restarted "2024-01-08T00:00:05" NoFault;
   Checked live_config sub1
     (env_at "2024-01-10T00:00:00" (Ok None) (Ok true));
   Checked live_config sub2
     (env_at "2024-01-10T00:00:01" (Ok (Some video2)) (Ok true))].

(** The state saved at the end of a run that notified [video1] on
    2024-01-08. *)
Definition state_saved_after_video1 : GlobalState :=
  StateManager.set_last_run "2024-01-08T00:00:05"
    (StateManager.increment_notification_count
       (StateManager.update_channel_state "2024-01-08T00:00:00" "UC1"
          "Channel One" "V1" "2024-01-06T00:00:00Z"
          StateManager._default_state)).

Definition codec_after_video1 : JsonCodec :=
  table_codec [("saved", state_saved_after_video1)].

Definition notice_of_video1 : Env :=
  env_at "2024-01-08T00:00:00" (Ok (Some video1)) (Ok true).

(** The run ends, the next run finds the same item on the first channel and
    notifies [video2] on the second. *)
Definition same_video_between : list event :=
  [Restarted "2024-01-08T00:00:05" NoFault;
   Checked live_config sub1
     (env_at "2024-01-10T00:00:00" (Ok (Some video1)) (Ok true));
   Checked live_config sub2
     (env_at "2024-01-10T00:00:01" (Ok (Some video2)) (Ok true))].

(** * Properties of the state manager *)

Section StateManagerFacts.
Import StateManager.

Lemma py_eq_str (a : pyval) (s : string) :
  py_eq a (PStr s) = true <-> a = PStr s.
Proof.
  destruct a; simpl; try (split; [discriminate | congruence]).
  rewrite bool_decide_eq_true. split; congruence.
Qed.

Lemma py_ne_str (a : pyval) (s : string) :
  py_ne a (PStr s) = true <-> a <> PStr s.
Proof.
  unfold py_ne. rewrite negb_true_iff, <- not_true_iff_false.
  by rewrite py_eq_str.
Qed.

Lemma handles_Exception (e : exn) : handles [Exception] e = true.
Proof. by destruct e. Qed.

Lemma channel_entry_latest_video_id (n v ts now : string) :
  dict_get (channel_entry n v ts now) "latest_video_id" = PStr v.
Proof. reflexivity. Qed.

Lemma channel_entry_last_checked (n v ts now : string) :
  dict_get (channel_entry n v ts now) "last_checked" = PStr now.
Proof. reflexivity. Qed.

(** C4. [get_channel_state] is the lookup of the channel id in the stored
    ["channels"] map, and [is_new_video] answers [True] exactly when that map
    has no entry for the channel, or the entry's ["latest_video_id"] is not
    the candidate id (the field may also be absent or hold another kind of
    value); nothing else of the state is consulted. *)
Theorem is_new_video_iff (st : GlobalState) (cid vid : string) :
  get_channel_state st cid = channels st !! cid
  /\ (is_new_video st cid vid = true
      <-> channels st !! cid = None
          \/ exists entry, channels st !! cid = Some entry
                /\ entry !! "latest_video_id" <> Some (PStr vid)).
Proof.
  split; [reflexivity |].
  unfold is_new_video, get_channel_state, dict_get.
  destruct (channels st !! cid) as [entry|] eqn:E.
  - rewrite py_ne_str. split.
    + intros Hne. right. exists entry. split; [done |].
      intros Hfield. by rewrite Hfield in Hne.
    + intros [Hnone | (entry' & [= <-] & Hne)]; [discriminate |].
      destruct (entry !! "latest_video_id") as [value|]; simpl;
        congruence.
  - split; [by left | done].
Qed.

(** C10. An entry that has no [latest_video_id] field makes every candidate
    new: [dict.get] answers [None], which differs from any string. *)
Theorem is_new_video_without_fingerprint (st : GlobalState)
    (cid vid : string) (entry : gmap string pyval) :
  get_channel_state st cid = Some entry ->
  entry !! "latest_video_id" = None ->
  is_new_video st cid vid = true.
Proof.
  intros Hentry Hfield. unfold is_new_video, dict_get.
  by rewrite Hentry, Hfield.
Qed.

Lemma is_new_video_without_fingerprint_witness :
  get_channel_state legacy_state "UC1" = Some entry_without_fingerprint
  /\ entry_without_fingerprint !! "latest_video_id" = None
  /\ is_new_video legacy_state "UC1" "dQw4w9WgXcQ" = true.
Proof.
  split; [reflexivity |]. split; [reflexivity |].
  apply (is_new_video_without_fingerprint legacy_state "UC1" "dQw4w9WgXcQ"
           entry_without_fingerprint); reflexivity.
Defined.
End StateManagerFacts.

Section PersistenceFacts.
Import StateManager.
Context `{JsonCodec}.

Lemma load_state_missing : _load_state Absent = (Ok _default_state, Absent).
Proof. reflexivity. Qed.

Lemma load_state_unreadable :
  _load_state Unreadable = (Ok _default_state, Unreadable).
Proof. reflexivity. Qed.

Lemma load_state_not_json (bytes : string) :
  utf8_valid bytes = true ->
  json_loads bytes = Raise JSONDecodeError ->
  _load_state (Content bytes) = (Ok _default_state, Content bytes).
Proof.
  intros Hutf Hjson.
  unfold _load_state, try_except, json_load, read_text, bind, outcome; simpl.
  rewrite Hutf; simpl. by rewrite Hjson.
Qed.

Lemma load_state_parsed (bytes : string) (st : GlobalState) :
  utf8_valid bytes = true ->
  json_loads bytes = Ok st ->
  _load_state (Content bytes) = (Ok st, Content bytes).
Proof.
  intros Hutf Hjson.
  unfold _load_state, try_except, json_load, read_text, bind, outcome; simpl.
  rewrite Hutf; simpl. by rewrite Hjson.
Qed.

(** C7. [_load_state] does raise: on a state file whose bytes are not valid
    UTF-8 the read fails with [UnicodeDecodeError], which is neither a
    [JSONDecodeError] nor an [OSError], so the handler lets it through and no
    default state is returned. *)
Theorem load_state_raises_on_undecodable_file :
  utf8_valid invalid_utf8_bytes = false
  /\ handles [JSONDecodeError; OSError] UnicodeDecodeError = false
  /\ _load_state (Content invalid_utf8_bytes)
     = (Raise UnicodeDecodeError, Content invalid_utf8_bytes).
Proof. repeat split. Qed.

Lemma save_state_sets_last_run (now : string) (fault : write_fault) (sm : t) :
  state (exec (save_state now fault) sm) = set_last_run now (state sm).
Proof. by destruct fault. Qed.

(** C3, amended. [save_state] stamps [last_run] and then writes in place.
    When creating the directory or opening the file fails, the file is as
    before; once the file is open its old content is gone, and a fault while
    writing leaves the part of the new text that had been written; without a
    fault the file holds the whole new text. *)
Theorem save_state_outcomes (now : string) (fault : write_fault) (sm : t) :
  let text := json_dumps (set_last_run now (state sm)) in
  let after := save_state now fault sm in
  state (snd after) = set_last_run now (state sm)
  /\ match fault with
     | NoFault =>
         fst after = Ok tt /\ disk (snd after) = Content text
     | MakedirsFails | OpenFails =>
         fst after = Raise OSError /\ disk (snd after) = disk sm
     | WriteFails written =>
         fst after = Raise OSError
         /\ disk (snd after) = Content (String.substring 0 written text)
     end.
Proof. by destruct fault. Qed.
End PersistenceFacts.

(** C3, as worded, fails: with the file holding a previous state and the
    write failing before anything reached the disk, [save_state] raises and
    the file is left empty. *)
Lemma save_is_not_all_or_nothing : ~ save_is_all_or_nothing.
Proof.
  intros Hclaim.
  pose (codec := {| json_dumps := fun _ => "{}";
                    json_loads := fun _ => Raise JSONDecodeError |}).
  specialize (Hclaim codec "2024-01-08T00:00:00" (WriteFails 0)
                manager_with_old_file).
  discriminate Hclaim. discriminate.
Qed.

(** * Properties of the monitor *)

Section MonitorFacts.
Context `{IsoParser}.
Variable config : Config.

Lemma recent_enough_returns {S} (env : Env) (published : string) (s : S) :
  _is_video_recent_enough config env published s
  = (Ok (recent config env published), s).
Proof.
  unfold recent, _is_video_recent_enough, try_except, bind, outcome, ret,
    raise.
  destruct (fromisoformat (replace_Z published)); [| reflexivity].
  destruct (timedelta_days (configured_max_age_days config)) as [max_age|e];
    [| by destruct e].
  by destruct (datetime_sub _ _) as [age|[]].
Qed.

Lemma send_notification_unfold (env : Env) (name : string) (v : Video)
    (m : t) :
  _send_notification config env name v m
  = match general config with
    | None => (Raise KeyError, m)
    | Some g =>
        if default false (dry_run g) then (Ok true, m)
        else (telegram_send env, log_call name (video_id v) m)
    end.
Proof.
  unfold _send_notification, bind, raise, ret.
  destruct (general config) as [g|]; [| done].
  by destruct (default false (dry_run g)).
Qed.

Lemma send_notification_keeps_state (env : Env) (name : string) (v : Video)
    (m : t) :
  state_manager (snd (_send_notification config env name v m))
  = state_manager m
  /\ stats (snd (_send_notification config env name v m)) = stats m.
Proof.
  rewrite send_notification_unfold.
  destruct (general config) as [g|]; [| done].
  by destruct (default false (dry_run g)).
Qed.

Lemma check_fetch_raises (env : Env) (sub : Subscription) (m : t) (e : exn) :
  latest_video env = Raise e ->
  _check_channel_for_new_videos config env sub m
  = (Ok tt, on_stats incr_errors (checked m)).
Proof.
  intros Hfetch.
  unfold _check_channel_for_new_videos, check_channel_try, try_except, bind,
    outcome, modify; simpl.
  rewrite Hfetch. by destruct e.
Qed.

Lemma check_no_video (env : Env) (sub : Subscription) (m : t) :
  latest_video env = Ok None ->
  _check_channel_for_new_videos config env sub m = (Ok tt, checked m).
Proof.
  intros Hfetch.
  unfold _check_channel_for_new_videos, check_channel_try, try_except, bind,
    outcome, modify; simpl.
  by rewrite Hfetch.
Qed.

Lemma check_stale (env : Env) (sub : Subscription) (m : t) (v : Video) :
  latest_video env = Ok (Some v) ->
  recent config env (published_at v) = false ->
  _check_channel_for_new_videos config env sub m
  = (Ok tt,
     on_state (StateManager.update_channel_state (utcnow env)
                 (channel_id sub) (channel_title sub) (video_id v)
                 (published_at v))
       (checked m)).
Proof.
  intros Hfetch Hold.
  unfold _check_channel_for_new_videos, check_channel_try, try_except, bind,
    outcome, modify; simpl.
  rewrite Hfetch, recent_enough_returns, Hold. reflexivity.
Qed.

Lemma check_not_new (env : Env) (sub : Subscription) (m : t) (v : Video) :
  latest_video env = Ok (Some v) ->
  recent config env (published_at v) = true ->
  StateManager.is_new_video (the_state m) (channel_id sub) (video_id v)
  = false ->
  _check_channel_for_new_videos config env sub m = (Ok tt, checked m).
Proof.
  intros Hfetch Hrecent Hseen.
  unfold _check_channel_for_new_videos, check_channel_try, try_except, bind,
    outcome, modify, gets; simpl.
  rewrite Hfetch, recent_enough_returns, Hrecent; simpl.
  change (the_state (on_stats incr_channels_checked m)) with (the_state m).
  by rewrite Hseen.
Qed.

Lemma check_new (env : Env) (sub : Subscription) (m : t) (v : Video) :
  passes_gates config env sub m v ->
  _check_channel_for_new_videos config env sub m
  = (Ok tt,
     after_dispatch env sub v
       (_send_notification config env (channel_title sub) v
          (on_stats incr_new_videos_found (checked m)))).
Proof.
  intros (Hfetch & Hrecent & Hnew).
  unfold _check_channel_for_new_videos, check_channel_try, try_except, bind,
    outcome, modify, gets, call_update_channel_state; simpl.
  rewrite Hfetch, recent_enough_returns, Hrecent; simpl.
  change (the_state (on_stats incr_channels_checked m)) with (the_state m).
  rewrite Hnew.
  destruct (_send_notification _ _ _ _ _) as [[[|]|e] m2]; simpl;
    [reflexivity | reflexivity | by destruct e].
Qed.
End MonitorFacts.

Section ChannelCheck.
Context `{IsoParser}.
Variable config : Config.

Lemma check_returns (env : Env) (sub : Subscription) (m : t) :
  fst (_check_channel_for_new_videos config env sub m) = Ok tt.
Proof.
  destruct (latest_video env) as [[v|]|e] eqn:Hfetch.
  - destruct (recent config env (published_at v)) eqn:Hrecent.
    + destruct (StateManager.is_new_video (the_state m) (channel_id sub)
                  (video_id v)) eqn:Hnew.
      * by rewrite (check_new config env sub m v).
      * by rewrite (check_not_new config env sub m v).
    + by rewrite (check_stale config env sub m v).
  - by rewrite check_no_video.
  - by rewrite (check_fetch_raises config env sub m e).
Qed.

Lemma after_dispatch_state (env : Env) (sub : Subscription) (v : Video)
    (r : result bool) (m : t) :
  r <> Ok true ->
  state_manager (after_dispatch env sub v (r, m)) = state_manager m.
Proof. by destruct r as [[|]|e]. Qed.

(** C1. When the fetched item passes the recency gate and the dedup gate and
    the dispatch answers [False], the check leaves the state manager exactly
    as it was: the channel's entry (fingerprint, timestamp, [last_checked])
    and the notification counter keep their values. *)
Theorem failed_dispatch_changes_no_state (env : Env) (sub : Subscription)
    (m : t) (v : Video) :
  passes_gates config env sub m v ->
  dispatch_reports config env sub v (Ok false) ->
  let m' := exec (_check_channel_for_new_videos config env sub) m in
  the_state m' = the_state m
  /\ StateManager.get_channel_state (the_state m') (channel_id sub)
     = StateManager.get_channel_state (the_state m) (channel_id sub)
  /\ total_sent m' = total_sent m.
Proof.
  intros Hgates Hsend m'.
  assert (Hstate : state_manager m' = state_manager m).
  { subst m'. unfold exec. rewrite (check_new config env sub m v Hgates).
    simpl.
    pose proof (Hsend (on_stats incr_new_videos_found (checked m))) as Hr.
    pose proof (send_notification_keeps_state config env (channel_title sub)
                  v (on_stats incr_new_videos_found (checked m))) as [Hk _].
    destruct (_send_notification _ _ _ _ _) as [r m2]; simpl in *.
    subst r. simpl. by rewrite Hk. }
  unfold total_sent, the_state. by rewrite Hstate.
Qed.

Lemma successful_dispatches_range (env : Env) (sub : Subscription) (m : t) :
  0 <= successful_dispatches config env sub m <= 1.
Proof.
  unfold successful_dispatches.
  destruct (latest_video env) as [[v|]|e]; try lia.
  destruct (_ && _); try lia.
  destruct (fst _) as [[|]|e]; lia.
Qed.

Lemma send_notification_result_any (env : Env) (name : string) (v : Video)
    (m1 m2 : t) :
  fst (_send_notification config env name v m1)
  = fst (_send_notification config env name v m2).
Proof.
  rewrite !send_notification_unfold.
  destruct (general config) as [g|]; [| done].
  by destruct (default false (dry_run g)).
Qed.

Lemma check_counter (env : Env) (sub : Subscription) (m : t) :
  let m' := exec (_check_channel_for_new_videos config env sub) m in
  total_sent m' = total_sent m + successful_dispatches config env sub m
  /\ notifications_sent (stats m')
     = notifications_sent (stats m) + successful_dispatches config env sub m.
Proof.
  simpl. unfold exec, successful_dispatches.
  destruct (latest_video env) as [[v|]|e] eqn:Hfetch.
  - destruct (recent config env (published_at v)) eqn:Hrecent.
    + destruct (StateManager.is_new_video (the_state m) (channel_id sub)
                  (video_id v)) eqn:Hnew.
      * rewrite (check_new config env sub m v); [| done]. simpl.
        rewrite (send_notification_result_any env (channel_title sub) v m
                   (on_stats incr_new_videos_found (checked m))).
        pose proof (send_notification_keeps_state config env
                      (channel_title sub) v
                      (on_stats incr_new_videos_found (checked m)))
          as [Hk Hs].
        destruct (_send_notification _ _ _ _ _) as [[[|]|e] m2];
          simpl in *; unfold total_sent, the_state; simpl;
          rewrite ?Hk, ?Hs; simpl; split; lia.
      * rewrite (check_not_new config env sub m v); [| done..].
        unfold total_sent, the_state, checked; simpl. split; lia.
    + rewrite (check_stale config env sub m v); [| done..].
      unfold total_sent, the_state, checked; simpl. split; lia.
  - rewrite check_no_video; [| done].
    unfold total_sent, the_state, checked; simpl. split; lia.
  - rewrite (check_fetch_raises config env sub m e); [| done].
    unfold total_sent, the_state, checked; simpl. split; lia.
Qed.

Lemma check_all_cons (step : Subscription * Env)
    (rest : list (Subscription * Env)) (m : t) :
  check_all config (step :: rest) m
  = check_all config rest
      (exec (_check_channel_for_new_videos config (snd step) (fst step)) m).
Proof.
  unfold check_all, exec; simpl. unfold bind at 1.
  pose proof (check_returns (snd step) (fst step) m) as Hret.
  by destruct (_check_channel_for_new_videos _ _ _ _) as [[[]|e] m1];
    simpl in Hret; [| discriminate].
Qed.

Lemma check_all_returns (steps : list (Subscription * Env)) (m : t) :
  fst (check_all config steps m) = Ok tt.
Proof.
  revert m. induction steps as [|step rest IH]; intros m; [done |].
  rewrite check_all_cons. apply IH.
Qed.

Lemma check_all_counter (steps : list (Subscription * Env)) (m : t) :
  total_sent m <= total_sent (exec (check_all config steps) m).
Proof.
  revert m. induction steps as [|step rest IH]; intros m; [done |].
  unfold exec in *. rewrite check_all_cons.
  etrans; [| apply IH].
  pose proof (check_counter (snd step) (fst step) m) as [Hc _].
  pose proof (successful_dispatches_range (snd step) (fst step) m).
  unfold exec in *. lia.
Qed.
End ChannelCheck.

Section Counters.
Context `{IsoParser} `{JsonCodec}.
Variable config : Config.

Lemma dry_run_reports_success (env : Env) (sub : Subscription) (v : Video) :
  dry_run_enabled config -> dispatch_reports config env sub v (Ok true).
Proof.
  intros (g & Hg & Hdry) m. rewrite send_notification_unfold.
  by rewrite Hg, Hdry.
Qed.

Lemma successful_dispatches_reported (env : Env) (sub : Subscription)
    (m : t) (v : Video) (r : result bool) :
  passes_gates config env sub m v ->
  dispatch_reports config env sub v r ->
  successful_dispatches config env sub m
  = match r with Ok true => 1 | _ => 0 end.
Proof.
  intros (Hfetch & Hrecent & Hnew) Hsend. unfold successful_dispatches.
  by rewrite Hfetch, Hrecent, Hnew, (Hsend m).
Qed.

Lemma save_state_counter (now : string) (fault : write_fault)
    (sm : StateManager.t) :
  total_notifications_sent
    (metadata (StateManager.state (exec (StateManager.save_state now fault)
                                     sm)))
  = total_notifications_sent (metadata (StateManager.state sm)).
Proof. by destruct fault. Qed.

Lemma run_counter (subscriptions : result (list (Subscription * Env)))
    (now : string) (fault : write_fault) (m : t) :
  total_sent m <= total_sent (exec (run config subscriptions now fault) m).
Proof.
  unfold exec, run, try_except, bind, outcome.
  destruct subscriptions as [[|step rest]|e]; simpl.
  - done.
  - pose proof (check_all_returns config (step :: rest) m) as Hret.
    pose proof (check_all_counter config (step :: rest) m) as Hle.
    unfold exec in Hle.
    destruct (check_all config (step :: rest) m) as [[[]|e] m1];
      simpl in *; [| discriminate].
    unfold in_state_manager.
    pose proof (save_state_counter now fault (state_manager m1)) as Hsave.
    unfold exec in Hsave.
    destruct (StateManager.save_state now fault (state_manager m1))
      as [[[]|e] sm]; simpl in *.
    + unfold total_sent, the_state in *; simpl. lia.
    + destruct e; unfold total_sent, the_state in *; simpl; lia.
  - by destruct e.
Qed.

(** C2, amended. The counter follows what the dispatch reports: a check adds
    exactly the number of notifications dispatched with success, which is 0
    or 1; a dry run reports success and is counted like a real one; a
    dispatch that answers [False] or raises adds nothing. No operation ever
    lowers the counter. *)
Theorem notification_counter_follows_reported_success (env : Env)
    (sub : Subscription) (m : t) :
  let m' := exec (_check_channel_for_new_videos config env sub) m in
  total_sent m' = total_sent m + successful_dispatches config env sub m
  /\ 0 <= successful_dispatches config env sub m <= 1
  /\ (forall v, passes_gates config env sub m v ->
        dry_run_enabled config ->
        successful_dispatches config env sub m = 1)
  /\ (forall v r, passes_gates config env sub m v ->
        dispatch_reports config env sub v r ->
        successful_dispatches config env sub m
        = match r with Ok true => 1 | _ => 0 end)
  /\ total_sent m <= total_sent m'
  /\ (forall steps m0,
        total_sent m0 <= total_sent (exec (check_all config steps) m0))
  /\ (forall subscriptions now fault m0,
        total_sent m0
        <= total_sent (exec (run config subscriptions now fault) m0))
  /\ (forall now cid name vid ts st,
        total_notifications_sent
          (metadata (StateManager.update_channel_state now cid name vid ts st))
        = total_notifications_sent (metadata st))
  /\ (forall st,
        total_notifications_sent
          (metadata (StateManager.increment_notification_count st))
        = total_notifications_sent (metadata st) + 1)
  /\ (forall now fault sm,
        total_notifications_sent
          (metadata (StateManager.state
                       (exec (StateManager.save_state now fault) sm)))
        = total_notifications_sent (metadata (StateManager.state sm))).
Proof.
  intros m'.
  pose proof (check_counter config env sub m) as [Hcount _].
  pose proof (successful_dispatches_range config env sub m) as Hrange.
  split; [exact Hcount |]. split; [exact Hrange |].
  split.
  { intros v Hgates Hdry.
    by rewrite (successful_dispatches_reported env sub m v (Ok true) Hgates
                  (dry_run_reports_success env sub v Hdry)). }
  split; [intros v r; apply successful_dispatches_reported |].
  split; [subst m'; simpl in Hcount; lia |].
  split; [apply check_all_counter |].
  split; [apply run_counter |].
  split; [done |]. split; [done |]. apply save_state_counter.
Qed.
End Counters.

(** C2, as worded, fails: in a dry run a new, recent item is counted. With
    [dry_run] set, an empty state and an item published two days before the
    check, the counter goes from 0 to 1. *)
Lemma dry_run_is_counted : ~ counter_ignores_dry_run.
Proof.
  intros Hclaim.
  specialize (Hclaim example_parser dry_config
                (env_at "2024-01-08T00:00:00" (Ok (Some video1)) (Ok true))
                sub1 fresh_monitor).
  assert (Hdry : dry_run_enabled dry_config) by (by eexists).
  specialize (Hclaim Hdry). vm_compute in Hclaim. discriminate Hclaim.
Qed.

Section LastChecked.
Context `{IsoParser}.
Variable config : Config.

Lemma last_checked_after_update (now cid name vid ts : string)
    (st : GlobalState) :
  last_checked_of (StateManager.update_channel_state now cid name vid ts st)
    cid
  = Some (PStr now).
Proof.
  unfold last_checked_of, StateManager.get_channel_state,
    StateManager.update_channel_state; simpl.
  by rewrite lookup_insert_eq.
Qed.

(** C9, amended. [last_checked] is stamped with the current time exactly on
    the two paths that write the channel's entry: the item is too old to
    notify, or it was dispatched with success. On every other path (no item,
    item not new, dispatch answering [False] or raising, fetch raising) the
    state, and with it [last_checked], is left as it was. *)
Theorem last_checked_stamped_only_when_recorded (env : Env)
    (sub : Subscription) (m : t) :
  let m' := exec (_check_channel_for_new_videos config env sub) m in
  if records_item config env sub m
  then last_checked_of (the_state m') (channel_id sub)
       = Some (PStr (utcnow env))
  else the_state m' = the_state m.
Proof.
  simpl. unfold exec, records_item, successful_dispatches.
  destruct (latest_video env) as [[v|]|e] eqn:Hfetch.
  - destruct (recent config env (published_at v)) eqn:Hrecent; simpl.
    + destruct (StateManager.is_new_video (the_state m) (channel_id sub)
                  (video_id v)) eqn:Hnew.
      * rewrite (check_new config env sub m v); [| done]. simpl.
        rewrite (send_notification_result_any config env (channel_title sub)
                   v m (on_stats incr_new_videos_found (checked m))).
        pose proof (send_notification_keeps_state config env
                      (channel_title sub) v
                      (on_stats incr_new_videos_found (checked m)))
          as [Hk _].
        destruct (_send_notification _ _ _ _ _) as [[[|]|e] m2];
          simpl in *.
        -- unfold the_state; simpl. apply last_checked_after_update.
        -- unfold the_state. by rewrite Hk.
        -- unfold the_state; simpl. by rewrite Hk.
      * by rewrite (check_not_new config env sub m v).
    + rewrite (check_stale config env sub m v); [| done..].
      unfold the_state; simpl. apply last_checked_after_update.
  - by rewrite check_no_video.
  - by rewrite (check_fetch_raises config env sub m e).
Qed.
End LastChecked.

(** C9, as worded, fails: a check that finds no item leaves [last_checked]
    alone. The first channel has an entry stamped 2024-01-07; the check of
    2024-01-10 finds no video; the stamp is still 2024-01-07. *)
Lemma last_checked_not_refreshed_without_item :
  ~ last_checked_always_refreshed.
Proof.
  intros Hclaim.
  specialize (Hclaim example_parser live_config
                (env_at "2024-01-10T00:00:00" (Ok None) (Ok true))
                sub1 monitor_tracking_video1).
  assert (Hentry : is_Some (StateManager.get_channel_state
                              (the_state monitor_tracking_video1)
                              (channel_id sub1))) by (by eexists).
  specialize (Hclaim Hentry). vm_compute in Hclaim. discriminate Hclaim.
Qed.

Section FaultIsolation.
Context `{IsoParser}.
Variable config : Config.

Lemma try_keeps_error_count (env : Env) (cid name : string) (m : t) :
  errors (stats (snd (check_channel_try config env cid name m)))
  = errors (stats m)
  /\ channels_checked (stats (snd (check_channel_try config env cid name m)))
     = channels_checked (stats m).
Proof.
  unfold check_channel_try, bind, outcome, gets, modify,
    call_update_channel_state.
  destruct (latest_video env) as [[v|]|e]; simpl; [| done..].
  rewrite recent_enough_returns.
  destruct (recent config env (published_at v)); simpl; [| done].
  destruct (StateManager.is_new_video _ _ _); [| done].
  rewrite send_notification_unfold.
  destruct (general config) as [g|]; [| done].
  destruct (default false (dry_run g)); [done |].
  by destruct (telegram_send env) as [[|]|e].
Qed.

Lemma check_error_count (env : Env) (sub : Subscription) (m : t) :
  let m' := exec (_check_channel_for_new_videos config env sub) m in
  errors (stats m')
  = errors (stats m) + (if channel_fails config env sub m then 1 else 0)
  /\ channels_checked (stats m') = channels_checked (stats m) + 1.
Proof.
  simpl. unfold exec, channel_fails, _check_channel_for_new_videos,
    try_except, bind, modify; simpl.
  pose proof (try_keeps_error_count env (channel_id sub) (channel_title sub)
                (on_stats incr_channels_checked m)) as [He Hc].
  destruct (check_channel_try _ _ _ _ _) as [[[]|e] m1]; simpl in *.
  - rewrite He, Hc. split; lia.
  - destruct e; simpl; rewrite He, Hc; split; lia.
Qed.

(** A channel fails exactly when its fetch raises or, the item having passed
    both gates, its dispatch raises. *)
Lemma channel_fails_iff (env : Env) (sub : Subscription) (m : t) :
  channel_fails config env sub m = true
  <-> (exists e, latest_video env = Raise e)
      \/ (exists v e, passes_gates config env sub m v
                      /\ dispatch_reports config env sub v (Raise e)).
Proof.
  unfold channel_fails, passes_gates, dispatch_reports, check_channel_try,
    bind, outcome, gets, modify, call_update_channel_state.
  change (the_state (on_stats incr_channels_checked m)) with (the_state m).
  destruct (latest_video env) as [[v|]|e]; simpl.
  - rewrite recent_enough_returns.
    destruct (recent config env (published_at v)) eqn:Hrecent; simpl.
    + destruct (StateManager.is_new_video _ _ _) eqn:Hnew; simpl.
      * setoid_rewrite send_notification_unfold.
        destruct (general config) as [g|]; simpl.
        -- destruct (default false (dry_run g)); simpl.
           ++ split; [done |].
              intros [[e He] | (v' & e & _ & Hs)]; [done |].
              specialize (Hs m). done.
           ++ destruct (telegram_send env) as [[|]|e]; simpl.
              ** split; [done |].
                 intros [[e He] | (v' & e & _ & Hs)]; [done |].
                 specialize (Hs m). done.
              ** split; [done |].
                 intros [[e He] | (v' & e & _ & Hs)]; [done |].
                 specialize (Hs m). done.
              ** split; [| done]. intros _. right. exists v, e.
                 by repeat split.
        -- split; [| done]. intros _. right. exists v, KeyError.
           by repeat split.
      * split; [done |].
        intros [[e He] | (v' & e & (Hv & _ & Hn) & _)]; [done |].
        injection Hv as <-. unfold the_state in *. simpl in *. congruence.
    + split; [done |].
      intros [[e He] | (v' & e & (Hv & Hr & _) & _)]; [done |].
      injection Hv as <-. congruence.
  - split; [done |].
    intros [[e He] | (v' & e & (Hv & _) & _)]; done.
  - split; [| done]. intros _. left. by exists e.
Qed.




End FaultIsolation.

(** A failing channel does not keep the next one from being notified: the
    fetch of the first channel raises, the second channel has a new item
    published that day, and the run ends with one error, one notification
    and the call to Telegram made. *)
Example failing_channel_then_notified_channel :
  let m' :=
    exec (check_all (H := example_parser) live_config
            [(sub1, env_at "2024-01-10T00:00:00" (Raise RuntimeError)
                      (Ok true));
             (sub2, env_at "2024-01-10T00:00:01" (Ok (Some video2))
                      (Ok true))])
      fresh_monitor in
  errors (stats m') = 1
  /\ channels_checked (stats m') = 2
  /\ notifications_sent (stats m') = 1
  /\ telegram_calls m' = [("Channel Two", "V2")]
  /\ fingerprint_of (the_state m') "UC2" = Some (PStr "V2").
Proof. vm_compute. repeat split. Qed.

Section Recency.
Context `{IsoParser}.
Variable config : Config.

Lemma recent_of_aware (env : Env) (published : string) (w off : Z) :
  fromisoformat (replace_Z published)
  = Some {| wall := w; utcoffset := Some off |} ->
  -999999999 <= configured_max_age_days config <= 999999999 ->
  recent config env published
  = (now_utc env - (w - off)
     <=? configured_max_age_days config * microseconds_per_day).
Proof.
  intros Hparse [Hlo Hhi].
  unfold recent, _is_video_recent_enough, try_except, bind, outcome, ret.
  rewrite Hparse. unfold timedelta_days.
  apply Z.leb_le in Hlo, Hhi. rewrite Hlo, Hhi. simpl.
  by rewrite Z.sub_0_r.
Qed.

(** The window the configuration gives: [max_video_age_days] of the section
    ["youtube"], and 7 when the section or the key is missing. *)
Lemma configured_window (days : Z) :
  youtube config = Some {| max_video_age_days := Some days |}
  \/ (days = 7
      /\ (youtube config = None
          \/ youtube config = Some {| max_video_age_days := None |})) ->
  configured_max_age_days config = days.
Proof.
  unfold configured_max_age_days.
  by intros [-> | [-> [-> | ->]]].
Qed.

(** C5, amended. For a timestamp that parses to an instant (a datetime with
    a zone, as YouTube's [Z]-suffixed timestamps are) and a window of [days]
    days that [timedelta] can hold, [days] being the configured
    [max_video_age_days] or 7 when the configuration gives none, the recency
    policy returns and accepts the item exactly when
    [now - published <= days] days. The bound is inclusive: an age of exactly
    [days] days is accepted, one second more is not. *)
Theorem recency_boundary_is_inclusive (env : Env) (published : string)
    (w off days : Z) :
  fromisoformat (replace_Z published)
  = Some {| wall := w; utcoffset := Some off |} ->
  youtube config = Some {| max_video_age_days := Some days |}
  \/ (days = 7
      /\ (youtube config = None
          \/ youtube config = Some {| max_video_age_days := None |})) ->
  -999999999 <= days <= 999999999 ->
  let age := now_utc env - (w - off) in
  let max_age := days * microseconds_per_day in
  (forall (m : t),
     _is_video_recent_enough config env published m
     = (Ok (bool_decide (age <= max_age)), m))
  /\ (recent config env published = true <-> age <= max_age)
  /\ (age = max_age -> recent config env published = true)
  /\ (age = max_age + 1000000 -> recent config env published = false).
Proof.
  intros Hparse Hwindow Hrange age max_age.
  apply configured_window in Hwindow.
  rewrite <- Hwindow in Hrange.
  pose proof (recent_of_aware env published w off Hparse Hrange) as Hrecent.
  rewrite Hwindow in Hrecent. fold age max_age in Hrecent.
  split.
  { intros m. rewrite recent_enough_returns, Hrecent.
    do 2 f_equal. destruct (Z.leb_spec age max_age).
    - by rewrite bool_decide_eq_true_2.
    - rewrite bool_decide_eq_false_2; [done | lia]. }
  rewrite Hrecent.
  split; [apply Z.leb_le |].
  split; [intros ->; apply Z.leb_refl |].
  intros ->. apply Z.leb_gt. lia.
Qed.
End Recency.

(** With a window of 30 days, an item published exactly 30 days before the
    check is accepted, and one published a second earlier is not. *)
Lemma recency_boundary_is_inclusive_witness :
  let env := env_at "2024-01-31T00:00:00" (Ok None) (Ok true) in
  fromisoformat (IsoParser := example_parser)
    (replace_Z "2024-01-01T00:00:00Z")
  = Some {| wall := 1704067200000000; utcoffset := Some 0 |}
  /\ youtube wide_config = Some {| max_video_age_days := Some 30 |}
  /\ -999999999 <= 30 <= 999999999
  /\ recent (H := example_parser) wide_config env "2024-01-01T00:00:00Z"
     = true
  /\ recent (H := example_parser) wide_config env "2023-12-31T23:59:59Z"
     = false.
Proof.
  intros env.
  assert (Hrange : -999999999 <= 30 <= 999999999) by lia.
  split; [reflexivity |]. split; [reflexivity |]. split; [exact Hrange |].
  split.
  - apply (recency_boundary_is_inclusive (H := example_parser) wide_config
             env "2024-01-01T00:00:00Z" 1704067200000000 0 30 eq_refl
             (or_introl eq_refl) Hrange).
    reflexivity.
  - apply (recency_boundary_is_inclusive (H := example_parser) wide_config
             env "2023-12-31T23:59:59Z" 1704067199000000 0 30 eq_refl
             (or_introl eq_refl) Hrange).
    reflexivity.
Defined.

(** C5, as worded, fails: a timestamp without zone parses, and is accepted
    whatever its age. With a window of 7 days, the item stamped
    [2020-01-01T00:00:00] is accepted on 2024-01-08, four years later:
    subtracting a datetime without zone from the current time raises
    [TypeError], and the handler answers [True]. *)
Lemma zoneless_timestamp_is_always_recent :
  ~ recency_accepts_iff_within_window.
Proof.
  intros Hclaim.
  specialize (Hclaim example_parser week_config
                (env_at "2024-01-08T00:00:00" (Ok None) (Ok true))
                "2020-01-01T00:00:00"
                {| wall := 1577836800000000; utcoffset := None |} 7
                eq_refl eq_refl).
  assert (Hrange : 0 <= 7 <= 999999999) by lia.
  destruct (Hclaim Hrange) as [Hold _].
  specialize (Hold eq_refl). vm_compute in Hold. by apply Hold.
Qed.

Section StaleSuppression.
Context `{IsoParser}.

Lemma still_stale (config0 config : Config) (env0 env : Env)
    (published : string) :
  recent config0 env0 published = false ->
  configured_max_age_days config = configured_max_age_days config0 ->
  now_utc env0 <= now_utc env ->
  recent config env published = false.
Proof.
  unfold recent, _is_video_recent_enough, try_except, bind, outcome, ret,
    raise.
  intros Hold Hsame Hclock. rewrite Hsame.
  destruct (fromisoformat (replace_Z published)) as [d|]; [| done].
  destruct (timedelta_days (configured_max_age_days config0)) as [max_age|e];
    [| by destruct e].
  unfold datetime_sub in *; simpl in *.
  destruct (utcoffset d) as [off|]; [| done]. simpl in *.
  apply Z.leb_gt in Hold. apply Z.leb_gt. lia.
Qed.

(** What a check can do to the state: nothing, or write the entry of the
    channel it examines with the id of the item it fetched. *)
Lemma check_state_shape (config : Config) (env : Env) (sub : Subscription)
    (m : t) :
  let st' := the_state (exec (_check_channel_for_new_videos config env sub) m)
  in
  st' = the_state m
  \/ exists v, latest_video env = Ok (Some v)
       /\ channels st'
          = <[channel_id sub :=
                StateManager.channel_entry (channel_title sub) (video_id v)
                  (published_at v) (utcnow env)]> (channels (the_state m)).
Proof.
  simpl. unfold exec.
  destruct (latest_video env) as [[v|]|e] eqn:Hfetch.
  - destruct (recent config env (published_at v)) eqn:Hrecent.
    + destruct (StateManager.is_new_video (the_state m) (channel_id sub)
                  (video_id v)) eqn:Hnew.
      * rewrite (check_new config env sub m v); [| done]. simpl.
        pose proof (send_notification_keeps_state config env
                      (channel_title sub) v
                      (on_stats incr_new_videos_found (checked m)))
          as [Hk _].
        destruct (_send_notification _ _ _ _ _) as [[[|]|e] m2];
          simpl in *.
        -- right. exists v. split; [done |].
           unfold the_state; simpl. by rewrite Hk.
        -- left. unfold the_state. by rewrite Hk.
        -- left. unfold the_state; simpl. by rewrite Hk.
      * left. by rewrite (check_not_new config env sub m v).
    + right. exists v. split; [done |].
      by rewrite (check_stale config env sub m v).
  - left. by rewrite check_no_video.
  - left. by rewrite (check_fetch_raises config env sub m e).
Qed.

Lemma fingerprint_kept (cid vid : string)
    (step : Config * Subscription * Env) (m : t) :
  fingerprint_of (the_state m) cid = Some (PStr vid) ->
  refetches cid vid step ->
  fingerprint_of
    (the_state (exec (_check_channel_for_new_videos step.1.1 step.2 step.1.2)
                  m)) cid
  = Some (PStr vid).
Proof.
  intros Hfp Hstep.
  destruct (check_state_shape step.1.1 step.2 step.1.2 m)
    as [-> | (v & Hfetch & Hch)]; [done |].
  unfold fingerprint_of, StateManager.get_channel_state in *. rewrite Hch.
  destruct (decide (channel_id step.1.2 = cid)) as [Heq | Hne].
  - specialize (Hstep Heq). rewrite Hfetch in Hstep. subst.
    by rewrite lookup_insert_eq.
  - by rewrite lookup_insert_ne.
Qed.

Lemma recorded_item_is_not_new (st : GlobalState) (cid vid : string) :
  fingerprint_of st cid = Some (PStr vid) ->
  StateManager.is_new_video st cid vid = false.
Proof.
  unfold fingerprint_of, StateManager.is_new_video.
  destruct (StateManager.get_channel_state st cid) as [entry|]; [| done].
  simpl. intros [= ->]. unfold py_ne. simpl.
  by rewrite bool_decide_eq_true_2.
Qed.

Context `{JsonCodec}.

(** A save without fault that is read back as written starts the next
    process on the saved state. *)
Lemma restart_reads_back (now : string) (m : t) :
  let saved := StateManager.set_last_run now (the_state m) in
  utf8_valid (json_dumps saved) = true ->
  json_loads (json_dumps saved) = Ok saved ->
  restart now NoFault m
  = Some {| state_manager :=
              {| StateManager.state := saved;
                 StateManager.disk := Content (json_dumps saved) |};
            stats := new_stats;
            telegram_calls := telegram_calls m |}.
Proof.
  intros saved Hutf Hjson. unfold restart, new_state_manager.
  change (StateManager.disk
            (exec (StateManager.save_state now NoFault) (state_manager m)))
    with (Content (json_dumps saved)).
  by rewrite (load_state_parsed (json_dumps saved) saved Hutf Hjson).
Qed.

Lemma later_runs_keep_fingerprint (cid vid : string) (history : list event)
    (m m2 : t) :
  fingerprint_of (the_state m) cid = Some (PStr vid) ->
  record_kept cid vid history m ->
  later_runs history m = Some m2 ->
  fingerprint_of (the_state m2) cid = Some (PStr vid).
Proof.
  revert m. induction history as [|[config sub env | now fault] rest IH];
    intros m Hfp Hkept Hruns; simpl in *.
  - by injection Hruns as <-.
  - destruct Hkept as [Hstep Hkept].
    apply (IH _ (fingerprint_kept cid vid (config, sub, env) m Hfp Hstep)
             Hkept Hruns).
  - destruct Hkept as (-> & [Hutf Hjson] & Hkept).
    rewrite (restart_reads_back now m Hutf Hjson) in Hkept, Hruns.
    eapply IH; [| exact Hkept | exact Hruns]. exact Hfp.
Qed.

Lemma record_kept_runs (cid vid : string) (history : list event) (m : t) :
  record_kept cid vid history m -> is_Some (later_runs history m).
Proof.
  revert m. induction history as [|[config sub env | now fault] rest IH];
    intros m Hkept; simpl in *.
  - by eexists.
  - destruct Hkept as [_ Hkept]. by apply IH.
  - destruct Hkept as (_ & _ & Hkept).
    destruct (restart now fault m) as [m'|]; [by apply IH | done].
Qed.

(** C6, amended. Once the recency gate has skipped an item and recorded its
    id, a check in a later run that finds the same item as the channel's
    latest one sends nothing and counts nothing, provided that the window is
    the same and the clock has not gone back (the item is still too old), or
    that the record made by the skip has reached that run: every save in
    between was without fault and was read back as written at the next
    start, and every check of the channel in between found this item or
    none. In the second case the later run does start. *)
Theorem stale_item_is_not_notified_again (config0 : Config) (env0 : Env)
    (sub : Subscription) (v : Video) (m0 : t) (history : list event)
    (config : Config) (env : Env) (sub' : Subscription) (v' : Video)
    (m2 : t) :
  latest_video env0 = Ok (Some v) ->
  recent config0 env0 (published_at v) = false ->
  channel_id sub' = channel_id sub ->
  latest_video env = Ok (Some v') ->
  video_id v' = video_id v ->
  published_at v' = published_at v ->
  let m1 := exec (_check_channel_for_new_videos config0 env0 sub) m0 in
  (youtube config = youtube config0 /\ now_utc env0 <= now_utc env)
  \/ record_kept (channel_id sub) (video_id v) history m1 ->
  later_runs history m1 = Some m2 ->
  fingerprint_of (the_state m1) (channel_id sub) = Some (PStr (video_id v))
  /\ nothing_notified m2
       (exec (_check_channel_for_new_videos config env sub') m2)
  /\ (record_kept (channel_id sub) (video_id v) history m1 ->
      fingerprint_of (the_state m2) (channel_id sub)
      = Some (PStr (video_id v))).
Proof.
  intros Hfetch0 Hold Hsub Hfetch Hid Hpub m1 Hcases Hruns.
  assert (Hfp1 : fingerprint_of (the_state m1) (channel_id sub)
                 = Some (PStr (video_id v))).
  { subst m1. unfold exec. rewrite (check_stale config0 env0 sub m0 v);
      [| done..].
    unfold fingerprint_of, StateManager.get_channel_state, the_state; simpl.
    by rewrite lookup_insert_eq. }
  split; [exact Hfp1 |]. split.
  - destruct (recent config env (published_at v')) eqn:Hrecent.
    + assert (Hseen : StateManager.is_new_video (the_state m2)
                        (channel_id sub') (video_id v') = false).
      { rewrite Hsub, Hid. apply recorded_item_is_not_new.
        destruct Hcases as [[Hsame Hclock] | Hkept].
        - rewrite Hpub in Hrecent.
          assert (Hwindow : configured_max_age_days config
                            = configured_max_age_days config0)
            by (unfold configured_max_age_days; by rewrite Hsame).
          by rewrite (still_stale config0 config env0 env _ Hold Hwindow
                        Hclock) in Hrecent.
        - by apply (later_runs_keep_fingerprint _ _ history m1). }
      unfold exec. by rewrite (check_not_new config env sub' m2 v').
    + unfold exec. by rewrite (check_stale config env sub' m2 v').
  - intros Hkept. by apply (later_runs_keep_fingerprint _ _ history m1).
Qed.
End StaleSuppression.

(** The states met in the example of C6: the first run records V0 and saves,
    the second starts from what was saved, notifies V2 and saves, and the
    third starts with V2 as the channel's fingerprint. *)
Example another_item_takes_the_record :
  let m1 :=
    exec (_check_channel_for_new_videos (H := example_parser) live_config
            skip_of_old_video sub1) fresh_monitor in
  fingerprint_of (the_state m1) "UC1" = Some (PStr "V0")
  /\ exists m2,
       later_runs (H := example_parser) (H0 := example_codec)
         another_item_between m1 = Some m2
       /\ the_state m2 = state_saved_by_run2
       /\ fingerprint_of (the_state m2) "UC1" = Some (PStr "V2")
       /\ telegram_calls m2 = [("Channel One", "V2")].
Proof.
  split; [reflexivity |]. eexists. split; [vm_compute; reflexivity |].
  repeat split.
Qed.

(** C6, as worded, fails. The first channel's latest item V0 is 14 days old
    on 2024-01-08 with a window of 7 days: it is skipped and recorded, and
    the run saves. In the run of 2024-01-10 the channel's latest item is V2,
    which is notified and recorded in place of V0, and the run saves. In the
    run of 2024-01-12 the latest item is V0 again and the window has been
    set to 30 days: V0 is recent and differs from the recorded V2, so it is
    sent. *)
Lemma stale_item_notified_after_another : ~ stale_item_is_never_notified.
Proof.
  intros Hclaim.
  destruct another_item_takes_the_record as (_ & m2 & Hruns & _).
  specialize (Hclaim example_parser example_codec live_config
                skip_of_old_video sub1 old_video fresh_monitor
                another_item_between wide_config
                (env_at "2024-01-12T00:00:00" (Ok (Some old_video)) (Ok true))
                m2 eq_refl eq_refl eq_refl Hruns).
  vm_compute in Hruns. injection Hruns as <-.
  destruct Hclaim as [Hcalls _]. vm_compute in Hcalls. discriminate Hcalls.
Qed.

Lemma same_item_between_keeps_record :
  record_kept (H := example_parser) (H0 := example_codec) "UC1" "V0"
    same_item_between
    (exec (_check_channel_for_new_videos (H := example_parser) live_config
             skip_of_old_video sub1) fresh_monitor).
Proof.
  split; [reflexivity |]. split; [by split |].
  split; [by intros _ |]. split; [| done].
  intros Hsame. discriminate Hsame.
Defined.

Lemma stale_item_is_not_notified_again_witness :
  let env := env_at "2024-01-12T00:00:00" (Ok (Some old_video)) (Ok true) in
  let m1 :=
    exec (_check_channel_for_new_videos (H := example_parser) live_config
            skip_of_old_video sub1) fresh_monitor in
  recent (H := example_parser) live_config skip_of_old_video
    (published_at old_video) = false
  /\ record_kept (H := example_parser) (H0 := example_codec) "UC1" "V0"
       same_item_between m1
  /\ exists m2,
       later_runs (H := example_parser) (H0 := example_codec)
         same_item_between m1 = Some m2
       /\ nothing_notified m2
            (exec (_check_channel_for_new_videos (H := example_parser)
                     wide_config env sub1) m2).
Proof.
  intros env m1.
  split; [reflexivity |]. split; [exact same_item_between_keeps_record |].
  eexists. split; [vm_compute; reflexivity |].
  apply (stale_item_is_not_notified_again (H := example_parser)
           (H0 := example_codec) live_config skip_of_old_video sub1 old_video
           fresh_monitor same_item_between wide_config env sub1 old_video _
           eq_refl eq_refl eq_refl eq_refl eq_refl eq_refl
           (or_intror same_item_between_keeps_record)).
  vm_compute. reflexivity.
Defined.

Lemma failed_dispatch_changes_no_state_witness :
  let env := env_at "2024-01-08T00:00:00" (Ok (Some video1)) (Ok false) in
  passes_gates (H := example_parser) live_config env sub1 fresh_monitor video1
  /\ dispatch_reports live_config env sub1 video1 (Ok false)
  /\ the_state
       (exec (_check_channel_for_new_videos (H := example_parser) live_config
                env sub1) fresh_monitor)
     = the_state fresh_monitor.
Proof.
  intros env.
  assert (Hgates : passes_gates (H := example_parser) live_config env sub1
                     fresh_monitor video1) by (repeat split).
  assert (Hsend : dispatch_reports live_config env sub1 video1 (Ok false))
    by (intros m; reflexivity).
  split; [exact Hgates |]. split; [exact Hsend |].
  apply (failed_dispatch_changes_no_state (H := example_parser) live_config
           env sub1 fresh_monitor video1 Hgates Hsend).
Defined.

(** * Further properties of the state manager *)

Section StateManagerMore.
Import StateManager.

(** X1. Once [update_channel_state] has recorded an item for a channel,
    [is_new_video] answers [False] for that item and [True] for every other
    id on that channel; its answers for other channels are what they were. *)
Theorem is_new_video_after_update (now cid name vid ts : string)
    (st : GlobalState) (cid' vid' : string) :
  is_new_video (update_channel_state now cid name vid ts st) cid' vid'
  = if decide (cid' = cid) then negb (bool_decide (vid' = vid))
    else is_new_video st cid' vid'.
Proof.
  unfold is_new_video, get_channel_state, update_channel_state; simpl.
  destruct (decide (cid' = cid)) as [-> | Hne].
  - rewrite lookup_insert_eq, channel_entry_latest_video_id.
    unfold py_ne; simpl. f_equal.
    destruct (decide (vid = vid')) as [-> | Hv].
    + by rewrite !bool_decide_eq_true_2.
    + rewrite !bool_decide_eq_false_2; [done | congruence | done].
  - by rewrite lookup_insert_ne.
Qed.

(** X2. The last update of a channel wins: a second [update_channel_state]
    of the same channel leaves the state the second one alone would give,
    and updates of two different channels can be made in either order. *)
Theorem update_channel_state_overwrites (now1 now2 cid name1 name2 vid1 vid2
    ts1 ts2 : string) (st : GlobalState) :
  update_channel_state now2 cid name2 vid2 ts2
    (update_channel_state now1 cid name1 vid1 ts1 st)
  = update_channel_state now2 cid name2 vid2 ts2 st
  /\ (forall cid', cid' <> cid ->
        update_channel_state now2 cid' name2 vid2 ts2
          (update_channel_state now1 cid name1 vid1 ts1 st)
        = update_channel_state now1 cid name1 vid1 ts1
            (update_channel_state now2 cid' name2 vid2 ts2 st)).
Proof.
  unfold update_channel_state; simpl. split.
  - by rewrite insert_insert_eq.
  - intros cid' Hne. f_equal. by apply insert_insert_ne.
Qed.

(** X3. [get_stats] counts the entries: an update of a channel that has no
    entry yet adds one to [total_channels_tracked], an update of a known
    channel adds none, and neither touches the notification count or
    [last_run]; the default state tracks no channel. *)
Theorem get_stats_counts_channels (now cid name vid ts : string)
    (st : GlobalState) :
  let after := get_stats (update_channel_state now cid name vid ts st) in
  total_channels_tracked after
  = total_channels_tracked (get_stats st)
    + match get_channel_state st cid with Some _ => 0 | None => 1 end
  /\ stats_total_notifications_sent after
     = stats_total_notifications_sent (get_stats st)
  /\ stats_last_run after = stats_last_run (get_stats st)
  /\ total_channels_tracked (get_stats _default_state) = 0.
Proof.
  simpl. unfold get_channel_state. repeat split.
  destruct (channels st !! cid) as [entry|] eqn:Hentry.
  - rewrite map_size_insert_Some; [lia | done].
  - rewrite map_size_insert_None; [lia | done].
Qed.
End StateManagerMore.

Section PersistenceMore.
Import StateManager.
Context `{JsonCodec}.

(** X4. [_load_state] never changes the file, and the exceptions it
    handles are exactly [JSONDecodeError] and [OSError]. A missing or
    unreadable file gives the default state; bytes that are not UTF-8 raise
    [UnicodeDecodeError]; otherwise what [json.load] returns is returned as
    it is, [JSONDecodeError] and [OSError] from it give the default state,
    and any other exception it raises leaves [_load_state]. *)
Theorem load_state_outcomes (state_file : file) :
  snd (_load_state state_file) = state_file
  /\ fst (_load_state state_file)
     = match state_file with
       | Absent | Unreadable => Ok _default_state
       | Content bytes =>
           if utf8_valid bytes then
             match json_loads bytes with
             | Ok st => Ok st
             | Raise JSONDecodeError | Raise OSError => Ok _default_state
             | Raise e => Raise e
             end
           else Raise UnicodeDecodeError
       end.
Proof.
  destruct state_file as [| |bytes]; [done | done |].
  unfold _load_state, try_except, json_load, read_text, bind, outcome; simpl.
  destruct (utf8_valid bytes); simpl; [| done].
  by destruct (json_loads bytes) as [st|[]].
Qed.

(** X5. What a save without fault wrote is what the next start reads: when
    the serialization of the state is UTF-8 text that [json.loads] reads
    back as that state, [_load_state] on the file left by [save_state]
    returns the saved state, [last_run] stamp included. *)
Theorem save_then_load (now : string) (sm : t) :
  let saved := set_last_run now (state sm) in
  utf8_valid (json_dumps saved) = true ->
  json_loads (json_dumps saved) = Ok saved ->
  fst (_load_state (disk (exec (save_state now NoFault) sm))) = Ok saved.
Proof.
  intros saved Hutf Hjson.
  change (disk (exec (save_state now NoFault) sm))
    with (Content (json_dumps saved)).
  by rewrite (load_state_parsed _ saved Hutf Hjson).
Qed.

(** X6. A write that fails part-way resets the tracking at the next start:
    when the part of the serialization that reached the file is UTF-8 text
    that is not JSON, [save_state] raises [OSError] and [_load_state] on the
    file it left answers the default state, without raising. *)
Theorem faulted_save_then_load (now : string) (written : nat) (sm : t) :
  let text := json_dumps (set_last_run now (state sm)) in
  utf8_valid (String.substring 0 written text) = true ->
  json_loads (String.substring 0 written text) = Raise JSONDecodeError ->
  fst (save_state now (WriteFails written) sm) = Raise OSError
  /\ fst (_load_state (disk (exec (save_state now (WriteFails written)) sm)))
     = Ok _default_state.
Proof.
  intros text Hutf Hjson. split; [done |].
  change (disk (exec (save_state now (WriteFails written)) sm))
    with (Content (String.substring 0 written text)).
  by rewrite (load_state_not_json _ Hutf Hjson).
Qed.
End PersistenceMore.

Example load_state_lets_recursion_error_through :
  StateManager._load_state (H := overflowing_codec) (Content "[[[[")
  = (Raise RecursionError, Content "[[[[").
Proof. reflexivity. Qed.

Lemma save_then_load_witness :
  let codec := one_state_codec saved_default_state in
  utf8_valid (json_dumps saved_default_state) = true
  /\ json_loads (json_dumps saved_default_state) = Ok saved_default_state
  /\ fst (StateManager._load_state
            (StateManager.disk
               (exec (StateManager.save_state "2024-01-08T00:00:00" NoFault)
                  manager_without_file)))
     = Ok saved_default_state.
Proof.
  intros codec. split; [reflexivity |]. split; [reflexivity |].
  apply (save_then_load (H := codec) "2024-01-08T00:00:00"
           manager_without_file); reflexivity.
Defined.

Lemma faulted_save_then_load_witness :
  let codec := one_state_codec saved_default_state in
  utf8_valid (String.substring 0 1 (json_dumps saved_default_state)) = true
  /\ json_loads (String.substring 0 1 (json_dumps saved_default_state))
     = Raise JSONDecodeError
  /\ fst (StateManager._load_state
            (StateManager.disk
               (exec (StateManager.save_state "2024-01-08T00:00:00"
                        (WriteFails 1)) manager_without_file)))
     = Ok StateManager._default_state.
Proof.
  intros codec. split; [reflexivity |]. split; [reflexivity |].
  apply (faulted_save_then_load (H := codec) "2024-01-08T00:00:00" 1
           manager_without_file); reflexivity.
Defined.

(** * Further properties of the monitor *)

Section RunFacts.
Context `{IsoParser} `{JsonCodec}.
Variable config : Config.

Lemma check_all_error_count (steps : list (Subscription * Env)) (m : t) :
  errors (stats (exec (check_all config steps) m))
  = errors (stats m) + failing_channels config steps m
  /\ channels_checked (stats (exec (check_all config steps) m))
     = channels_checked (stats m) + Z.of_nat (length steps).
Proof.
  revert m. induction steps as [|step rest IH]; intros m;
    [unfold exec; simpl; lia |].
  destruct (IH (exec (_check_channel_for_new_videos config (snd step)
                        (fst step)) m)) as [IHe IHc].
  pose proof (check_error_count config (snd step) (fst step) m) as [He Hc].
  unfold exec in *. rewrite check_all_cons. simpl in He, Hc.
  simpl failing_channels. simpl length. unfold exec. lia.
Qed.


(** X7. With at least one subscription [run] checks every channel, then
    saves once, and returns its statistics without raising: the state is the
    one the checks left with [last_run] stamped, the file is what
    [save_state] made of it, and a fault of the save is counted as one error
    on top of the channels' own. *)
Theorem run_accounting (step : Subscription * Env)
    (rest : list (Subscription * Env)) (now : string) (fault : write_fault)
    (m : t) :
  let steps := step :: rest in
  let m1 := exec (check_all config steps) m in
  let m' := exec (run config (Ok steps) now fault) m in
  fst (run config (Ok steps) now fault m) = Ok (stats m')
  /\ state_manager m'
     = exec (StateManager.save_state now fault) (state_manager m1)
  /\ the_state m' = StateManager.set_last_run now (the_state m1)
  /\ telegram_calls m' = telegram_calls m1
  /\ stats m'
     = match fault with
       | NoFault => stats m1
       | _ => incr_errors (stats m1)
       end
  /\ errors (stats m')
     = errors (stats m) + failing_channels config steps m
       + match fault with NoFault => 0 | _ => 1 end.
Proof.
  intros steps m1 m'.
  pose proof (check_all_returns config steps m) as Hret.
  pose proof (check_all_error_count steps m) as [Herr _].
  assert (Hrun : run config (Ok steps) now fault m
                 = (Ok (stats m'), m')
                 /\ state_manager m'
                    = exec (StateManager.save_state now fault)
                        (state_manager m1)
                 /\ telegram_calls m' = telegram_calls m1
                 /\ stats m' = match fault with
                               | NoFault => stats m1
                               | _ => incr_errors (stats m1)
                               end).
  { subst m' m1. unfold exec, run, try_except, bind, outcome, gets,
      in_state_manager. simpl.
    destruct (check_all config steps m) as [[[]|e] m2]; simpl in *;
      [| discriminate].
    by destruct fault. }
  destruct Hrun as (Hrun & Hsm & Hcalls & Hstats).
  split; [by rewrite Hrun |]. split; [exact Hsm |].
  split.
  { unfold the_state. rewrite Hsm. apply save_state_sets_last_run. }
  split; [exact Hcalls |]. split; [exact Hstats |].
  rewrite Hstats. subst m1. destruct fault; simpl errors; rewrite Herr; lia.
Qed.
End RunFacts.

Section Progress.
Context `{IsoParser}.
Variable config : Config.

Lemma not_dry_run (g : General) :
  general config = Some g ->
  ~ dry_run_enabled config ->
  default false (dry_run g) = false.
Proof.
  intros Hg Hnot. destruct (dry_run g) as [[|]|] eqn:Hdry; try done.
  exfalso. apply Hnot. by exists g.
Qed.

Lemma progress_refl (m : t) : progress config 0 m m.
Proof. unfold progress, calls_made. repeat split; intros; lia. Qed.

Lemma progress_trans (n k : Z) (m m1 m2 : t) :
  progress config n m m1 ->
  progress config k m1 m2 ->
  progress config (n + k) m m2.
Proof.
  unfold progress, calls_made.
  intros (? & ? & ? & ? & ? & ? & ? & Hdry1 & Hreal1)
         (? & ? & ? & ? & ? & ? & ? & Hdry2 & Hreal2).
  repeat split; try lia.
  - intros Hdry. by rewrite Hdry2, Hdry1.
  - intros Hreal. specialize (Hreal1 Hreal). specialize (Hreal2 Hreal). lia.
Qed.

Lemma progress_check (env : Env) (sub : Subscription) (m : t) :
  progress config 1 m (exec (_check_channel_for_new_videos config env sub) m).
Proof.
  unfold exec.
  destruct (latest_video env) as [[v|]|e] eqn:Hfetch.
  - destruct (recent config env (published_at v)) eqn:Hrecent.
    + destruct (StateManager.is_new_video (the_state m) (channel_id sub)
                  (video_id v)) eqn:Hnew.
      * rewrite (check_new config env sub m v); [| done].
        rewrite send_notification_unfold.
        destruct (general config) as [g|] eqn:Hg.
        -- destruct (default false (dry_run g)) eqn:Hdry.
           ++ unfold progress, calls_made, total_sent, the_state; simpl.
              repeat split; try lia.
              intros Hreal. by rewrite (not_dry_run g Hg Hreal) in Hdry.
           ++ assert (Hno : ~ dry_run_enabled config).
              { intros (g' & Hg' & Hd). rewrite Hg in Hg'.
                injection Hg' as <-. by rewrite Hd in Hdry. }
              destruct (telegram_send env) as [[|]|e];
                unfold progress, calls_made, total_sent, the_state; simpl;
                repeat split; try lia; try done.
        -- unfold progress, calls_made, total_sent, the_state; simpl.
           repeat split; try lia.
      * rewrite (check_not_new config env sub m v); [| done..].
        unfold progress, calls_made, total_sent, the_state; simpl.
        repeat split; try lia.
    + rewrite (check_stale config env sub m v); [| done..].
      unfold progress, calls_made, total_sent, the_state; simpl.
      repeat split; try lia.
  - rewrite check_no_video; [| done].
    unfold progress, calls_made, total_sent, the_state; simpl.
    repeat split; try lia.
  - rewrite (check_fetch_raises config env sub m e); [| done].
    unfold progress, calls_made, total_sent, the_state; simpl.
    repeat split; try lia.
Qed.

Lemma progress_check_all (steps : list (Subscription * Env)) (m : t) :
  progress config (Z.of_nat (length steps)) m
    (exec (check_all config steps) m).
Proof.
  revert m. induction steps as [|step rest IH]; intros m.
  - apply progress_refl.
  - unfold exec. rewrite check_all_cons.
    replace (Z.of_nat (length (step :: rest)))
      with (1 + Z.of_nat (length rest)) by (simpl length; lia).
    eapply progress_trans; [apply progress_check | apply IH].
Qed.

(** X9. The statistics of a run stay ordered. Over any list of channels,
    [channels_checked] grows by the number of channels, and of these at most
    as many count as new videos, of which at most as many count as sent;
    a channel counted as an error is never also counted as sent; and the
    persisted [total_notifications_sent] grows by exactly what
    [notifications_sent] grows by. *)
Theorem statistics_stay_ordered (steps : list (Subscription * Env)) (m : t) :
  let m' := exec (check_all config steps) m in
  let checked := channels_checked (stats m') - channels_checked (stats m) in
  let found := new_videos_found (stats m') - new_videos_found (stats m) in
  let sent := notifications_sent (stats m') - notifications_sent (stats m) in
  let failed := errors (stats m') - errors (stats m) in
  checked = Z.of_nat (length steps)
  /\ 0 <= sent <= found
  /\ found <= checked
  /\ 0 <= failed
  /\ failed + sent <= checked
  /\ total_sent m' - total_sent m = sent.
Proof.
  destruct (progress_check_all steps m) as (? & ? & ? & ? & ? & ? & _).
  simpl. repeat split; lia.
Qed.

(** X10. Outside dry-run mode no notification is counted without a call to
    the Telegram client: over any list of channels the calls made are at
    least the notifications counted as sent and at most the new videos
    found. *)
Theorem sent_notifications_were_dispatched
    (steps : list (Subscription * Env)) (m : t) :
  ~ dry_run_enabled config ->
  let m' := exec (check_all config steps) m in
  notifications_sent (stats m') - notifications_sent (stats m)
  <= calls_made m m'
  <= new_videos_found (stats m') - new_videos_found (stats m).
Proof.
  intros Hreal.
  destruct (progress_check_all steps m)
    as (_ & _ & _ & _ & _ & _ & ? & _ & Hsent).
  specialize (Hsent Hreal). simpl. lia.
Qed.

(** X11. In dry-run mode the Telegram client is never called, whatever the
    channels deliver. *)
Theorem dry_run_never_calls_telegram (steps : list (Subscription * Env))
    (m : t) :
  dry_run_enabled config ->
  telegram_calls (exec (check_all config steps) m) = telegram_calls m.
Proof.
  intros Hdry.
  destruct (progress_check_all steps m)
    as (_ & _ & _ & _ & _ & _ & _ & Hcalls & _).
  by apply Hcalls.
Qed.
End Progress.

Lemma live_config_is_not_dry : ~ dry_run_enabled live_config.
Proof. intros (g & Hg & Hdry). injection Hg as <-. discriminate Hdry. Qed.

Lemma sent_notifications_were_dispatched_witness :
  let m' :=
    exec (check_all (H := example_parser) live_config one_new_video)
      fresh_monitor in
  ~ dry_run_enabled live_config
  /\ notifications_sent (stats m') - notifications_sent (stats fresh_monitor)
     <= calls_made fresh_monitor m'
     <= new_videos_found (stats m') - new_videos_found (stats fresh_monitor).
Proof.
  intros m'. split; [exact live_config_is_not_dry |].
  apply (sent_notifications_were_dispatched (H := example_parser) live_config
           one_new_video fresh_monitor live_config_is_not_dry).
Defined.

Lemma dry_run_never_calls_telegram_witness :
  dry_run_enabled dry_config
  /\ telegram_calls
       (exec (check_all (H := example_parser) dry_config one_new_video)
          fresh_monitor)
     = telegram_calls fresh_monitor.
Proof.
  assert (Hdry : dry_run_enabled dry_config) by (by eexists).
  split; [exact Hdry |].
  apply (dry_run_never_calls_telegram (H := example_parser) dry_config
           one_new_video fresh_monitor Hdry).
Defined.

Section MoreChecks.
Context `{IsoParser}.

(** X8. The recency policy never raises and fails open: whatever the
    timestamp and the configuration, [_is_video_recent_enough] returns, and
    it returns [True] when the timestamp cannot be parsed, when it parses to
    a datetime without zone, and when the configured number of days is
    beyond what [timedelta] holds. *)
Theorem recency_fails_open (config : Config) (env : Env)
    (published : string) (m : t) :
  (exists b, _is_video_recent_enough config env published m = (Ok b, m))
  /\ (fromisoformat (replace_Z published) = None ->
      recent config env published = true)
  /\ (forall w, fromisoformat (replace_Z published)
                = Some {| wall := w; utcoffset := None |} ->
      recent config env published = true)
  /\ (999999999 < Z.abs (configured_max_age_days config) ->
      recent config env published = true).
Proof.
  split; [eexists; apply recent_enough_returns |].
  unfold recent, _is_video_recent_enough, try_except, bind, outcome, ret,
    raise.
  split; [by intros -> |]. split.
  - intros w ->.
    by destruct (timedelta_days (configured_max_age_days config))
      as [max_age|[]].
  - intros Hbig.
    destruct (fromisoformat (replace_Z published)) as [d|]; [| done].
    unfold timedelta_days.
    destruct (_ && _) eqn:Hrange; [| done].
    apply andb_true_iff in Hrange as [Hlo Hhi].
    apply Z.leb_le in Hlo, Hhi. lia.
Qed.

Context `{JsonCodec}.

(** X12. A notified item is not notified twice while its record lasts. After
    a check that dispatched an item with success, let any number of checks
    and of ends of run follow, such that every check of the channel in
    between fetched this item or none, and every save in between was without
    fault and was read back as written at the next start. Then the later run
    is reached with the item's id still recorded, and a check of the channel
    that fetches the item with the same id there, under any configuration
    and at any time, sends nothing, counts nothing and keeps the id as the
    channel's fingerprint. *)
Theorem notified_item_is_not_notified_twice (config : Config) (env : Env)
    (sub : Subscription) (m : t) (v : Video) (history : list event)
    (config' : Config) (env' : Env) (sub' : Subscription) (v' : Video) :
  passes_gates config env sub m v ->
  dispatch_reports config env sub v (Ok true) ->
  channel_id sub' = channel_id sub ->
  latest_video env' = Ok (Some v') ->
  video_id v' = video_id v ->
  let m1 := exec (_check_channel_for_new_videos config env sub) m in
  record_kept (channel_id sub) (video_id v) history m1 ->
  total_sent m1 = total_sent m + 1
  /\ fingerprint_of (the_state m1) (channel_id sub)
     = Some (PStr (video_id v))
  /\ exists m2,
       later_runs history m1 = Some m2
       /\ fingerprint_of (the_state m2) (channel_id sub)
          = Some (PStr (video_id v))
       /\ (let m3 := exec (_check_channel_for_new_videos config' env' sub') m2
           in
           nothing_notified m2 m3
           /\ fingerprint_of (the_state m3) (channel_id sub)
              = Some (PStr (video_id v))).
Proof.
  intros Hgates Hsend Hsub Hfetch' Hid m1 Hkept.
  assert (Hm1 : total_sent m1 = total_sent m + 1
                /\ fingerprint_of (the_state m1) (channel_id sub)
                   = Some (PStr (video_id v))).
  { subst m1. unfold exec. rewrite (check_new config env sub m v Hgates).
    pose proof (Hsend (on_stats incr_new_videos_found (checked m))) as Hr.
    pose proof (send_notification_keeps_state config env (channel_title sub)
                  v (on_stats incr_new_videos_found (checked m))) as [Hk _].
    destruct (_send_notification _ _ _ _ _) as [r m3]; simpl in *.
    subst r. simpl.
    unfold total_sent, fingerprint_of, StateManager.get_channel_state,
      the_state; simpl.
    rewrite Hk, lookup_insert_eq. by split. }
  destruct Hm1 as [Htotal Hfp]. split; [exact Htotal |].
  split; [exact Hfp |].
  destruct (record_kept_runs _ _ history m1 Hkept) as [m2 Hruns].
  pose proof (later_runs_keep_fingerprint _ _ history m1 m2 Hfp Hkept Hruns)
    as Hfp2.
  exists m2. split; [exact Hruns |]. split; [exact Hfp2 |]. simpl.
  destruct (recent config' env' (published_at v')) eqn:Hrecent.
  - unfold exec.
    rewrite (check_not_new config' env' sub' m2 v'); [by split | done.. |].
    rewrite Hsub, Hid. by apply recorded_item_is_not_new.
  - unfold exec.
    rewrite (check_stale config' env' sub' m2 v'); [| done..].
    split; [done |].
    unfold fingerprint_of, StateManager.get_channel_state, the_state; simpl.
    by rewrite Hsub, lookup_insert_eq, Hid.
Qed.

Lemma check_state_cases (config : Config) (env : Env) (sub : Subscription)
    (m : t) :
  let m' := exec (_check_channel_for_new_videos config env sub) m in
  StateManager.disk (state_manager m') = StateManager.disk (state_manager m)
  /\ last_run (metadata (the_state m')) = last_run (metadata (the_state m))
  /\ version (metadata (the_state m')) = version (metadata (the_state m))
  /\ (channels (the_state m') = channels (the_state m)
      \/ exists entry,
           channels (the_state m')
           = <[channel_id sub := entry]> (channels (the_state m))).
Proof.
  simpl. unfold exec.
  destruct (latest_video env) as [[v|]|e] eqn:Hfetch.
  - destruct (recent config env (published_at v)) eqn:Hrecent.
    + destruct (StateManager.is_new_video (the_state m) (channel_id sub)
                  (video_id v)) eqn:Hnew.
      * rewrite (check_new config env sub m v); [| done]. simpl.
        pose proof (send_notification_keeps_state config env
                      (channel_title sub) v
                      (on_stats incr_new_videos_found (checked m)))
          as [Hk _].
        destruct (_send_notification _ _ _ _ _) as [[[|]|e] m2];
          simpl in *; unfold the_state; simpl; rewrite Hk; simpl;
          repeat split; eauto.
      * rewrite (check_not_new config env sub m v); [| done..].
        repeat split; eauto.
    + rewrite (check_stale config env sub m v); [| done..].
      unfold the_state; simpl. repeat split; eauto.
  - rewrite check_no_video; [| done]. repeat split; eauto.
  - rewrite (check_fetch_raises config env sub m e); [| done].
    repeat split; eauto.
Qed.

(** X13. The loop writes only the entries of the channels it checks, and
    deletes none: over any list of channels the state file, [last_run] and
    [version] are untouched, every entry that existed still exists, and the
    entry of a channel that is not in the list is exactly as it was. *)
Theorem loop_touches_only_checked_channels (config : Config)
    (steps : list (Subscription * Env)) (m : t) :
  let m' := exec (check_all config steps) m in
  StateManager.disk (state_manager m') = StateManager.disk (state_manager m)
  /\ last_run (metadata (the_state m')) = last_run (metadata (the_state m))
  /\ version (metadata (the_state m')) = version (metadata (the_state m))
  /\ (forall cid,
        is_Some (StateManager.get_channel_state (the_state m) cid) ->
        is_Some (StateManager.get_channel_state (the_state m') cid))
  /\ (forall cid,
        cid ∉ map (fun step => channel_id (fst step)) steps ->
        StateManager.get_channel_state (the_state m') cid
        = StateManager.get_channel_state (the_state m) cid).
Proof.
  simpl. revert m. induction steps as [|step rest IH]; intros m.
  - by repeat split.
  - unfold exec in *. rewrite check_all_cons.
    destruct (IH (exec (_check_channel_for_new_videos config (snd step)
                          (fst step)) m))
      as (IHd & IHl & IHv & IHkeep & IHother).
    destruct (check_state_cases config (snd step) (fst step) m)
      as (Hd & Hl & Hv & Hch).
    unfold exec in *. simpl in Hd, Hl, Hv, Hch.
    split; [by rewrite IHd |]. split; [by rewrite IHl |].
    split; [by rewrite IHv |]. split.
    + intros cid Hsome. apply IHkeep.
      unfold StateManager.get_channel_state in *.
      destruct Hch as [-> | [entry ->]]; [done |].
      destruct (decide (channel_id (fst step) = cid)) as [-> | Hne].
      * rewrite lookup_insert_eq. by eexists.
      * by rewrite lookup_insert_ne.
    + intros cid Hnotin. simpl in Hnotin.
      apply not_elem_of_cons in Hnotin as [Hne Hrest].
      rewrite (IHother cid Hrest).
      unfold StateManager.get_channel_state.
      destruct Hch as [-> | [entry ->]]; [done |].
      by rewrite lookup_insert_ne.
Qed.
End MoreChecks.

Lemma same_video_between_keeps_record :
  record_kept (H := example_parser) (H0 := codec_after_video1) "UC1" "V1"
    same_video_between
    (exec (_check_channel_for_new_videos (H := example_parser) live_config
             notice_of_video1 sub1) fresh_monitor).
Proof.
  split; [reflexivity |]. split; [by split |].
  split; [by intros _ |]. split; [| done].
  intros Hsame. discriminate Hsame.
Defined.

Lemma notified_item_is_not_notified_twice_witness :
  let env' := env_at "2024-01-20T00:00:00" (Ok (Some video1)) (Ok true) in
  let m1 :=
    exec (_check_channel_for_new_videos (H := example_parser) live_config
            notice_of_video1 sub1) fresh_monitor in
  passes_gates (H := example_parser) live_config notice_of_video1 sub1
    fresh_monitor video1
  /\ dispatch_reports live_config notice_of_video1 sub1 video1 (Ok true)
  /\ record_kept (H := example_parser) (H0 := codec_after_video1) "UC1" "V1"
       same_video_between m1
  /\ exists m2,
       later_runs (H := example_parser) (H0 := codec_after_video1)
         same_video_between m1 = Some m2
       /\ telegram_calls m2 = [("Channel Two", "V2"); ("Channel One", "V1")]
       /\ nothing_notified m2
            (exec (_check_channel_for_new_videos (H := example_parser)
                     wide_config env' sub1) m2).
Proof.
  intros env' m1.
  assert (Hgates : passes_gates (H := example_parser) live_config
                     notice_of_video1 sub1 fresh_monitor video1)
    by (repeat split).
  assert (Hsend : dispatch_reports live_config notice_of_video1 sub1 video1
                    (Ok true))
    by (intros m; reflexivity).
  split; [exact Hgates |]. split; [exact Hsend |].
  split; [exact same_video_between_keeps_record |].
  destruct (notified_item_is_not_notified_twice (H := example_parser)
              (H0 := codec_after_video1) live_config notice_of_video1 sub1
              fresh_monitor video1 same_video_between wide_config env' sub1
              video1 Hgates Hsend eq_refl eq_refl eq_refl
              same_video_between_keeps_record)
    as (_ & _ & m2 & Hruns & _ & Hquiet & _).
  exists m2. split; [exact Hruns |]. split; [| exact Hquiet].
  vm_compute in Hruns. by injection Hruns as <-.
Defined.

(** * Properties of construction, test mode and [main] *)

Section MainFacts.
Context `{IsoParser} `{JsonCodec}.

Lemma unset_false (p : Startup) (var : string) :
  unset p var = false ->
  exists value, environ p !! var = Some value /\ value <> EmptyString.
Proof.
  unfold unset. destruct (environ p !! var) as [value|]; [| done].
  intros Hset. exists value. split; [done |].
  by apply bool_decide_eq_false in Hset.
Qed.

(** X14. A monitor is constructed only with a configuration and all
    credentials: when [__init__] returns, the configuration file was there
    and readable, each of the four YouTube variables and the two Telegram
    variables is set and not empty, the statistics start at zero, the state
    is what [_load_state] found in the state file, and nothing of what the
    process found was changed. *)
Theorem construction_needs_config_and_credentials (p : Startup)
    (config : Config) (m : t) :
  fst (__init__ p) = Ok (config, m) ->
  config_file p = Some (Ok config)
  /\ (forall var,
        var ∈ required_vars ++ ["TELEGRAM_BOT_TOKEN"; "TELEGRAM_CHAT_ID"] ->
        exists value, environ p !! var = Some value /\ value <> EmptyString)
  /\ youtube_client_built p = Ok tt
  /\ telegram_client_built p = Ok tt
  /\ fst (StateManager._load_state (state_file p)) = Ok (the_state m)
  /\ StateManager.disk (state_manager m) = state_file p
  /\ stats m = new_stats
  /\ telegram_calls m = []
  /\ snd (__init__ p) = p.
Proof.
  unfold __init__, _load_config, _init_youtube_client, _init_telegram_client,
    new_state_manager, bind, gets, outcome, ret, raise; simpl.
  destruct (config_file p) as [[cfg|e]|] eqn:Hcfg; simpl; [| done..].
  destruct (unset p "YOUTUBE_CLIENT_ID") eqn:H1; simpl; [done |].
  destruct (unset p "YOUTUBE_CLIENT_SECRET") eqn:H2; simpl; [done |].
  destruct (unset p "YOUTUBE_REFRESH_TOKEN") eqn:H3; simpl; [done |].
  destruct (unset p "YOUTUBE_API_KEY") eqn:H4; simpl; [done |].
  destruct (youtube_client_built p) as [[]|e] eqn:Hyt; simpl; [| done].
  destruct (unset p "TELEGRAM_BOT_TOKEN") eqn:H5; simpl; [done |].
  destruct (unset p "TELEGRAM_CHAT_ID") eqn:H6; simpl; [done |].
  destruct (telegram_client_built p) as [[]|e] eqn:Htg; simpl; [| done].
  destruct (fst (StateManager._load_state (state_file p))) as [st|e] eqn:Hst;
    simpl; [| done].
  intros [= <- <-]. repeat split; try done.
  intros var Hvar. unfold required_vars in Hvar. simpl in Hvar.
  repeat (apply elem_of_cons in Hvar as [-> | Hvar];
          [by apply unset_false |]).
  by apply elem_of_nil in Hvar.
Qed.



(** X16. Test mode touches nothing and judges only the connections: when
    the Telegram test returns, [run] in test mode leaves the monitor, its
    state and the state file as they were, and [main] exits with 0 exactly
    when the monitor could be constructed and both tests report a
    connection. When the Telegram test raises, [main] exits with 1. *)
Theorem test_mode_outcome (p : Startup) (c : Connections) (config : Config)
    (subscriptions : result (list (Subscription * Env))) (now : string)
    (fault : write_fault) (m : t) :
  (forall connected, telegram_test c = Ok connected ->
     snd (run_with_mode true c config subscriptions now fault m) = m)
  /\ (fst (main true p c subscriptions now fault) = 0
      <-> (exists built, fst (__init__ p) = Ok built)
          /\ fst (youtube_test c) = true
          /\ telegram_test c = Ok true)
  /\ (forall e, telegram_test c = Raise e ->
        fst (main true p c subscriptions now fault) = 1).
Proof.
  split; [| split].
  - intros connected Htg.
    unfold run_with_mode, _test_connections, try_except, bind, outcome.
    by rewrite Htg.
  - unfold main, run_with_mode, _test_connections, try_except, bind, outcome.
    destruct (fst (__init__ p)) as [[config' m']|e]; simpl.
    2: { split; [done | by intros [[built Hbuilt] _]]. }
    destruct (telegram_test c) as [[|]|e]; simpl.
    + destruct (fst (youtube_test c)); simpl.
      * split; [intros _ | done]. by repeat split; eauto.
      * split; [done | by intros (_ & ? & _)].
    + rewrite andb_false_r. simpl.
      split; [done | by intros (_ & _ & ?)].
    + destruct e; simpl; (split; [done | by intros (_ & _ & ?)]).
  - intros e Htg.
    unfold main, run_with_mode, _test_connections, try_except, bind, outcome.
    destruct (fst (__init__ p)) as [[config' m']|e']; [| done].
    rewrite Htg. by destruct e.
Qed.
End MainFacts.

Lemma construction_needs_config_and_credentials_witness :
  let codec := one_state_codec saved_default_state in
  fst (__init__ good_startup) = Ok (live_config, fresh_monitor)
  /\ config_file good_startup = Some (Ok live_config).
Proof.
  intros codec. split; [reflexivity |].
  apply (construction_needs_config_and_credentials (H0 := codec) good_startup
           live_config fresh_monitor).
  reflexivity.
Defined.

(** * Properties of the Telegram client *)

Section TimeAgo.
Import TelegramClient.
Context `{IsoParser}.

Lemma time_ago_of_aware {S} (now_utc : Z) (published : string) (w off : Z)
    (s : S) :
  fromisoformat (replace_Z published)
  = Some {| wall := w; utcoffset := Some off |} ->
  _calculate_time_ago now_utc published s
  = (let time_diff := now_utc - (w - off) in
     let days := timedelta_days_of time_diff in
     let hours := timedelta_seconds_of time_diff / 3600 in
     let minutes := (timedelta_seconds_of time_diff mod 3600) / 60 in
     Ok (if 0 <? days then
           if days =? 1 then "1 day ago" else pretty days +:+ " days ago"
         else if 0 <? hours then
           if hours =? 1 then "1 hour ago" else pretty hours +:+ " hours ago"
         else if 0 <? minutes then
           if minutes =? 1 then "1 minute ago"
           else pretty minutes +:+ " minutes ago"
         else "Just now"), s).
Proof.
  intros Hparse.
  unfold _calculate_time_ago, try_except, bind, outcome, ret.
  rewrite Hparse. unfold datetime_sub; simpl. rewrite Z.sub_0_r.
  destruct (0 <? timedelta_days_of _); [by destruct (_ =? 1) |].
  destruct (0 <? timedelta_seconds_of _ / 3600); [by destruct (_ =? 1) |].
  destruct (0 <? _); [by destruct (_ =? 1) | done].
Qed.

(** X17. For a timestamp with a zone that lies in the past, the phrase
    depends on the whole seconds [s] elapsed, by the largest unit that fits:
    below 60 it is "Just now", below 3600 it counts [s / 60] minutes, below
    86400 it counts [s / 3600] hours, and from 86400 on it counts
    [s / 86400] days; a count of one is written in the singular. *)
Theorem time_ago_by_largest_unit {S} (now_utc : Z) (published : string)
    (w off : Z) (m : S) :
  fromisoformat (replace_Z published)
  = Some {| wall := w; utcoffset := Some off |} ->
  0 <= now_utc - (w - off) ->
  let s := (now_utc - (w - off)) / 1000000 in
  let count (n : Z) (one many : string) : string :=
    if n =? 1 then one else pretty n +:+ many in
  _calculate_time_ago now_utc published m
  = (Ok (if s <? 60 then "Just now"
         else if s <? 3600 then count (s / 60) "1 minute ago" " minutes ago"
         else if s <? 86400 then count (s / 3600) "1 hour ago" " hours ago"
         else count (s / 86400) "1 day ago" " days ago"), m).
Proof.
  intros Hparse Hpast s count.
  rewrite (time_ago_of_aware now_utc published w off m Hparse).
  unfold timedelta_days_of, timedelta_seconds_of, microseconds_per_day.
  subst s count. cbv zeta.
  set (age := now_utc - (w - off)) in *.
  assert (Hdays : age / (86400 * 1000000) = age / 1000000 / 86400).
  { rewrite Z.div_div; [f_equal; lia | lia | lia]. }
  assert (Hsecs : age mod (86400 * 1000000) / 1000000
                  = (age / 1000000) mod 86400).
  { rewrite (Z.mul_comm 86400), Z.rem_mul_r, Z.mul_comm, Z.div_add; [| lia..].
    rewrite (Z.div_small (age mod 1000000)); [lia |].
    apply Z.mod_pos_bound. lia. }
  rewrite Hdays, Hsecs. clear Hdays Hsecs.
  set (s := age / 1000000).
  assert (Hs : 0 <= s) by (subst s; apply Z.div_pos; lia).
  clearbody s.
  destruct (Z.ltb_spec s 60) as [H60 | H60].
  { rewrite (Z.div_small s 86400), (Z.mod_small s 86400) by lia.
    rewrite (Z.div_small s 3600), (Z.mod_small s 3600) by lia.
    rewrite (Z.div_small s 60) by lia. done. }
  destruct (Z.ltb_spec s 3600) as [H3600 | H3600].
  { rewrite (Z.div_small s 86400), (Z.mod_small s 86400) by lia.
    rewrite (Z.div_small s 3600), (Z.mod_small s 3600) by lia.
    assert (0 < s / 60) by (apply Z.div_str_pos; lia).
    simpl. destruct (Z.ltb_spec 0 (s / 60)); [done | lia]. }
  destruct (Z.ltb_spec s 86400) as [H86400 | H86400].
  { rewrite (Z.div_small s 86400), (Z.mod_small s 86400) by lia.
    assert (0 < s / 3600) by (apply Z.div_str_pos; lia).
    simpl. destruct (Z.ltb_spec 0 (s / 3600)); [done | lia]. }
  assert (0 < s / 86400) by (apply Z.div_str_pos; lia).
  destruct (Z.ltb_spec 0 (s / 86400)); [done | lia].
Qed.

(** X18. A timestamp up to an hour in the future is reported as
    "23 hours ago": the difference is negative, its [days] field is -1 and
    its [seconds] field counts up from the previous midnight. *)
Theorem time_ago_of_near_future {S} (now_utc : Z) (published : string)
    (w off : Z) (m : S) :
  fromisoformat (replace_Z published)
  = Some {| wall := w; utcoffset := Some off |} ->
  -3600 * 1000000 <= now_utc - (w - off) < 0 ->
  _calculate_time_ago now_utc published m = (Ok "23 hours ago", m).
Proof.
  intros Hparse Hfuture.
  rewrite (time_ago_of_aware now_utc published w off m Hparse).
  unfold timedelta_days_of, timedelta_seconds_of, microseconds_per_day.
  cbv zeta. set (age := now_utc - (w - off)) in *.
  assert (Hdays : age / (86400 * 1000000) = -1)
    by (Z.div_mod_to_equations; lia).
  assert (Hhours : age mod (86400 * 1000000) / 1000000 / 3600 = 23)
    by (Z.div_mod_to_equations; lia).
  by rewrite Hdays, Hhours.
Qed.

(** X19. [_calculate_time_ago] never raises, and answers "Recently" for a
    timestamp that cannot be parsed or that carries no zone. *)
Theorem time_ago_falls_back {S} (now_utc : Z) (published : string) (m : S) :
  (exists text, _calculate_time_ago now_utc published m = (Ok text, m))
  /\ (fromisoformat (replace_Z published) = None ->
      _calculate_time_ago now_utc published m = (Ok "Recently", m))
  /\ (forall w, fromisoformat (replace_Z published)
                = Some {| wall := w; utcoffset := None |} ->
      _calculate_time_ago now_utc published m = (Ok "Recently", m)).
Proof.
  split; [| split].
  - destruct (fromisoformat (replace_Z published)) as [[w [off|]]|] eqn:Hp.
    + eexists. by apply (time_ago_of_aware now_utc published w off m).
    + exists "Recently".
      unfold _calculate_time_ago, try_except, bind, outcome, ret.
      by rewrite Hp.
    + exists "Recently".
      unfold _calculate_time_ago, try_except, bind, outcome, ret, raise.
      by rewrite Hp.
  - intros Hp. unfold _calculate_time_ago, try_except, bind, outcome, ret,
      raise. by rewrite Hp.
  - intros w Hp. unfold _calculate_time_ago, try_except, bind, outcome, ret.
    by rewrite Hp.
Qed.
End TimeAgo.

Lemma time_ago_by_largest_unit_witness :
  let now_utc := instant "2024-01-08T00:00:00+00:00" in
  fromisoformat (IsoParser := example_parser)
    (replace_Z "2024-01-06T00:00:00Z")
  = Some {| wall := 1704499200000000; utcoffset := Some 0 |}
  /\ 0 <= now_utc - (1704499200000000 - 0)
  /\ TelegramClient._calculate_time_ago (H := example_parser) now_utc
       "2024-01-06T00:00:00Z" tt
     = (Ok "2 days ago", tt).
Proof.
  intros now_utc.
  assert (Hpast : 0 <= now_utc - (1704499200000000 - 0)) by (by vm_compute).
  split; [reflexivity |]. split; [exact Hpast |].
  exact (time_ago_by_largest_unit (H := example_parser) now_utc
           "2024-01-06T00:00:00Z" 1704499200000000 0 tt eq_refl Hpast).
Defined.

Lemma time_ago_of_near_future_witness :
  let now_utc := instant "2024-01-08T00:00:00+00:00" in
  fromisoformat (IsoParser := example_parser)
    (replace_Z "2024-01-08T00:30:00Z")
  = Some {| wall := 1704673800000000; utcoffset := Some 0 |}
  /\ -3600 * 1000000 <= now_utc - (1704673800000000 - 0) < 0
  /\ TelegramClient._calculate_time_ago (H := example_parser) now_utc
       "2024-01-08T00:30:00Z" tt
     = (Ok "23 hours ago", tt).
Proof.
  intros now_utc.
  assert (Hfuture : -3600 * 1000000 <= now_utc - (1704673800000000 - 0) < 0)
    by (by vm_compute).
  split; [reflexivity |]. split; [exact Hfuture |].
  exact (time_ago_of_near_future (H := example_parser) now_utc
           "2024-01-08T00:30:00Z" 1704673800000000 0 tt eq_refl Hfuture).
Defined.

Section SendNotification.
Import TelegramClient.
Context `{IsoParser}.

Lemma cons_not_self {A} (x : A) (l : list A) : x :: l <> l.
Proof.
  intros Heq. apply (f_equal length) in Heq. simpl in Heq. lia.
Qed.

(** X20. [send_notification] never raises and makes at most one call to the
    bot. It answers [True] only when that one call was made and returned.
    The call is [send_photo] only when a thumbnail is given and dry-run is
    not set. *)
Theorem send_notification_outcome (config : Config)
    (telegram : option TelegramSection) (w : World)
    (channel_name video_title vid url published : string)
    (thumbnail : option string) (calls : list bot_call) :
  let r := send_notification config telegram w channel_name video_title vid
             url published thumbnail calls in
  (exists b, fst r = Ok b)
  /\ (snd r = calls \/ exists call, snd r = call :: calls)
  /\ (fst r = Ok true ->
      (exists photo caption mode np,
         snd r = send_photo photo caption mode np :: calls
         /\ photo_sent w = Ok tt)
      \/ (exists text mode np,
            snd r = send_message text mode np :: calls
            /\ message_sent w = Ok tt))
  /\ (forall photo caption mode np,
        snd r = send_photo photo caption mode np :: calls ->
        given thumbnail = true /\ ~ dry_run_enabled config).
Proof.
  simpl. unfold send_notification, try_except, bind.
  destruct (time_ago_falls_back (now w) published calls)
    as [[time_ago ->] _].
  unfold ret, raise, outcome, modify.
  destruct telegram as [section|]; simpl.
  2: { split; [by eexists |]. split; [by left |]. split; [done |].
       intros ???? Heq. by apply symmetry, cons_not_self in Heq. }
  destruct (notification_template section) as [template|]; simpl.
  2: { split; [by eexists |]. split; [by left |]. split; [done |].
       intros ???? Heq. by apply symmetry, cons_not_self in Heq. }
  destruct (format w template channel_name video_title url time_ago)
    as [text|e]; simpl.
  2: { destruct e; simpl; (split; [by eexists |]); (split; [by left |]);
         (split; [done |]); intros ???? Heq;
         by apply symmetry, cons_not_self in Heq. }
  destruct (given thumbnail) eqn:Hgiven; simpl.
  - destruct (general config) as [g|] eqn:Hg; simpl.
    2: { split; [by eexists |]. split; [by left |]. split; [done |].
         intros ???? Heq. by apply symmetry, cons_not_self in Heq. }
    destruct (default false (dry_run g)) eqn:Hdry; simpl.
    + destruct (message_sent w) as [[]|e]; simpl; [| destruct e; simpl];
        (split; [by eexists |]); (split; [right; by eexists |]);
        (split; [first [done | intros _; right; by repeat eexists] |]);
        by intros ???? Heq.
    + assert (Hreal : ~ dry_run_enabled config).
      { intros (g' & Hg' & Hd). rewrite Hg in Hg'. injection Hg' as <-.
        by rewrite Hd in Hdry. }
      destruct (photo_sent w) as [[]|e]; simpl; [| destruct e; simpl];
        (split; [by eexists |]); (split; [right; by eexists |]);
        (split; [first [done | intros _; left; by repeat eexists] |]);
        by intros ???? Heq.
  - destruct (message_sent w) as [[]|e]; simpl; [| destruct e; simpl];
      (split; [by eexists |]); (split; [right; by eexists |]);
      (split; [first [done | intros _; right; by repeat eexists] |]);
      by intros ???? Heq.
Qed.

(** X21. Dry-run does not keep the Telegram client itself from sending:
    with [dry_run] set and a template that formats, [send_notification]
    still calls [send_message] with the formatted text, thumbnail or not,
    and answers whether that call returned. *)
Theorem send_notification_ignores_dry_run (config : Config)
    (section : TelegramSection) (w : World)
    (channel_name video_title vid url published : string)
    (thumbnail : option string) (calls : list bot_call)
    (template time_ago text : string) :
  dry_run_enabled config ->
  notification_template section = Some template ->
  _calculate_time_ago (now w) published calls = (Ok time_ago, calls) ->
  format w template channel_name video_title url time_ago = Ok text ->
  send_notification config (Some section) w channel_name video_title vid url
    published thumbnail calls
  = (Ok (match message_sent w with Ok _ => true | Raise _ => false end),
     send_message text (default HTML (parse_mode section))
       (default false (disable_web_page_preview section)) :: calls).
Proof.
  intros (g & Hg & Hdry) Htemplate Hago Hformat.
  unfold send_notification, try_except, bind. rewrite Hago.
  unfold ret, raise, outcome, modify. simpl.
  rewrite Htemplate. simpl. rewrite Hformat. simpl.
  rewrite Hg, Hdry. simpl.
  destruct (given thumbnail); simpl;
    by destruct (message_sent w) as [[]|[]].
Qed.
End SendNotification.

Lemma send_notification_ignores_dry_run_witness :
  dry_run_enabled dry_config
  /\ fst (TelegramClient.send_notification (H := example_parser) dry_config
            (Some example_section) example_world "Channel One" "First" "V1"
            "https://www.youtube.com/watch?v=V1" "2024-01-06T00:00:00Z"
            (Some "https://i.ytimg.com/vi/V1/hqdefault.jpg") [])
     = Ok true.
Proof.
  assert (Hdry : dry_run_enabled dry_config) by (by eexists).
  split; [exact Hdry |].
  exact (f_equal fst
           (send_notification_ignores_dry_run (H := example_parser)
              dry_config example_section example_world "Channel One"
              "First" "V1" "https://www.youtube.com/watch?v=V1"
              "2024-01-06T00:00:00Z"
              (Some "https://i.ytimg.com/vi/V1/hqdefault.jpg") []
              "{channel_name}" "2 days ago" "Channel One: First (2 days ago)"
              Hdry eq_refl eq_refl eq_refl)).
Defined.

(** * Properties of the YouTube client *)

Section Fetch.
Import YouTubeClient.
Context `{IsoParser}.

(** X22. An [HttpError] while fetching a channel's videos is not an error
    for the monitor. When the channel request or the playlist request fails
    with [HttpError], or the channel or its playlist is empty,
    [get_latest_video] answers [None], and the check of that channel counts
    it as checked and changes nothing else: no error is counted and the
    state is untouched. *)
Theorem http_error_looks_like_no_video (config : Config) (api : Api)
    (env : Env) (sub : Subscription) (m : t) :
  latest_video env = get_latest_video api (channel_id sub) ->
  channels_list api (channel_id sub) = HttpError
  \/ channels_list api (channel_id sub) = Answer []
  \/ (exists first rest,
        channels_list api (channel_id sub) = Answer (first :: rest)
        /\ (playlist_items_list api (uploads first) 1 = HttpError
            \/ playlist_items_list api (uploads first) 1 = Answer [])) ->
  get_latest_video api (channel_id sub) = Ok None
  /\ _check_channel_for_new_videos config env sub m = (Ok tt, checked m).
Proof.
  intros Henv Hcases.
  assert (Hnone : get_latest_video api (channel_id sub) = Ok None).
  { unfold get_latest_video, get_channel_videos, except_HttpError, and_then.
    destruct Hcases as [-> | [-> | (first & rest & -> & [-> | ->])]];
      reflexivity. }
  split; [exact Hnone |].
  apply check_no_video. by rewrite Henv.
Qed.
End Fetch.

Section Pagination.
Import YouTubeClient.

Lemma items_of_cons (page : Page) (pages : list Page) :
  items_of (page :: pages)
  = map subscription_of (page_items page) ++ items_of pages.
Proof. reflexivity. Qed.

Lemma subscriptions_loop_serves (api : Api) (first next : option string)
    (pages : list Page) (fuel : nat) (acc : list SubscriptionDict) :
  serves api first pages next ->
  subscriptions_loop (length pages + fuel) api first acc
  = subscriptions_loop fuel api next (acc ++ items_of pages).
Proof.
  intros Hserves. revert acc.
  induction Hserves as [token | token page pages next Hpage Htoken _ IH];
    intros acc.
  - by rewrite app_nil_r.
  - simpl. rewrite Hpage, Htoken, IH, items_of_cons. by rewrite app_assoc.
Qed.

(** X23. [get_subscriptions] follows the page tokens to the end: when the
    API serves a chain of pages and then a page without token, the result is
    the subscriptions of all the pages, in the order served, provided the
    loop is given at least as many requests as there are pages. *)
Theorem get_subscriptions_collects_all_pages (api : Api) (pages : list Page)
    (token : option string) (last : Page) (fuel : nat) :
  serves api None pages token ->
  subscriptions_list api token = Answer last ->
  no_token (nextPageToken last) = true ->
  (length pages < fuel)%nat ->
  get_subscriptions fuel api = Some (Ok (items_of (pages ++ [last]))).
Proof.
  intros Hserves Hlast Hend Hfuel.
  unfold get_subscriptions.
  replace fuel with (length pages + S (fuel - S (length pages)))%nat by lia.
  rewrite (subscriptions_loop_serves api None token pages _ [] Hserves).
  simpl. rewrite Hlast, Hend. simpl.
  unfold items_of. by rewrite map_app, concat_app; simpl; rewrite app_nil_r.
Qed.

(** X24. One [HttpError] discards every page fetched before it: when the
    API serves some pages and then fails with [HttpError],
    [get_subscriptions] answers the empty list, the same as for an account
    without subscriptions, and [run] on that answer checks nothing, saves
    nothing and counts no error. *)
Theorem http_error_discards_fetched_pages `{IsoParser} `{JsonCodec}
    (api : Api) (pages : list Page) (token : option string) (fuel : nat)
    (config : Config) (now : string) (fault : write_fault) (m : t) :
  serves api None pages token ->
  subscriptions_list api token = HttpError ->
  (length pages < fuel)%nat ->
  get_subscriptions fuel api = Some (Ok [])
  /\ run config (Ok []) now fault m = (Ok (stats m), m).
Proof.
  intros Hserves Herror Hfuel. split; [| done].
  unfold get_subscriptions.
  replace fuel with (length pages + S (fuel - S (length pages)))%nat by lia.
  rewrite (subscriptions_loop_serves api None token pages _ [] Hserves).
  simpl. by rewrite Herror.
Qed.

(** X25. The loop has no bound of its own: against an API that answers every
    request with a page naming a next page, [get_subscriptions] has not
    returned after any number of requests. *)
Theorem get_subscriptions_needs_a_last_page (api : Api) (fuel : nat) :
  (forall token, exists page,
     subscriptions_list api token = Answer page
     /\ no_token (nextPageToken page) = false) ->
  get_subscriptions fuel api = None.
Proof.
  intros Hendless. unfold get_subscriptions.
  assert (Hloop : forall token acc,
            subscriptions_loop fuel api token acc = None).
  { induction fuel as [|fuel IH]; intros token acc; [done |].
    simpl. destruct (Hendless token) as (page & -> & ->). apply IH. }
  by rewrite Hloop.
Qed.
End Pagination.

Lemma http_error_looks_like_no_video_witness :
  let api := two_page_api YouTubeClient.HttpError in
  let env :=
    env_at "2024-01-08T00:00:00"
      (YouTubeClient.get_latest_video api (channel_id sub1)) (Ok true) in
  YouTubeClient.channels_list api (channel_id sub1) = YouTubeClient.HttpError
  /\ _check_channel_for_new_videos (H := example_parser) live_config env sub1
       fresh_monitor
     = (Ok tt, checked fresh_monitor).
Proof.
  intros api env. split; [reflexivity |].
  apply (http_error_looks_like_no_video (H := example_parser) live_config api
           env sub1 fresh_monitor eq_refl (or_introl eq_refl)).
Defined.

Lemma two_pages_served (second : YouTubeClient.api_result YouTubeClient.Page) :
  YouTubeClient.serves (two_page_api second) None [first_page] (Some "page2").
Proof.
  apply YouTubeClient.serves_page; [reflexivity | reflexivity |].
  apply YouTubeClient.serves_none.
Defined.

Lemma get_subscriptions_collects_all_pages_witness :
  let api := two_page_api (YouTubeClient.Answer last_page) in
  YouTubeClient.serves api None [first_page] (Some "page2")
  /\ (length [first_page] < 5)%nat
  /\ YouTubeClient.get_subscriptions 5 api
     = Some (Ok (YouTubeClient.items_of ([first_page] ++ [last_page]))).
Proof.
  intros api.
  assert (Hfuel : (length [first_page] < 5)%nat) by (simpl; lia).
  split; [apply two_pages_served |]. split; [exact Hfuel |].
  exact (get_subscriptions_collects_all_pages api [first_page]
           (Some "page2") last_page 5
           (two_pages_served (YouTubeClient.Answer last_page)) eq_refl eq_refl
           Hfuel).
Defined.

Lemma http_error_discards_fetched_pages_witness :
  let api := two_page_api YouTubeClient.HttpError in
  let codec := one_state_codec saved_default_state in
  YouTubeClient.serves api None [first_page] (Some "page2")
  /\ YouTubeClient.subscriptions_list api (Some "page2")
     = YouTubeClient.HttpError
  /\ YouTubeClient.get_subscriptions 5 api = Some (Ok []).
Proof.
  intros api codec.
  assert (Hfuel : (length [first_page] < 5)%nat) by (simpl; lia).
  split; [apply two_pages_served |]. split; [reflexivity |].
  exact (proj1 (http_error_discards_fetched_pages (H := example_parser)
                  (H0 := codec) api [first_page] (Some "page2") 5
                  live_config "2024-01-08T00:00:00" NoFault fresh_monitor
                  (two_pages_served YouTubeClient.HttpError) eq_refl Hfuel)).
Defined.

Lemma get_subscriptions_needs_a_last_page_witness :
  let api := two_page_api (YouTubeClient.Answer first_page) in
  (forall token, exists page,
     YouTubeClient.subscriptions_list api token = YouTubeClient.Answer page
     /\ YouTubeClient.no_token (YouTubeClient.nextPageToken page) = false)
  /\ YouTubeClient.get_subscriptions 100 api = None.
Proof.
  intros api.
  assert (Hendless : forall token, exists page,
            YouTubeClient.subscriptions_list api token
            = YouTubeClient.Answer page
            /\ YouTubeClient.no_token (YouTubeClient.nextPageToken page)
               = false).
  { intros [token|]; exists first_page; by split. }
  split; [exact Hendless |].
  exact (get_subscriptions_needs_a_last_page api 100 Hendless).
Defined.
